(** * Attendance page: reconciliation of a class roster with saved records

    A shallow embedding of the React component [AttendancePage]
    (teacher/AttendancePage.jsx): its state, its event handlers and its two
    effects, followed by the properties of the load / edit / save cycle.

    Conventions of the embedding.
    - A JavaScript object used as a dictionary ([attendance],
      [existingRecords]) is a finite map keyed by the property name (the
      student identifier, converted to a string as JavaScript does for
      property keys).  [Object.entries] is [map_to_list]; its enumeration
      order is left abstract: two objects holding the same entries in a
      different order are one map, and what is proved of a map is proved of
      its entries, not of the order of its keys.  Keys are database
      identifiers, so no key is a property of [Object.prototype].
    - Values whose JavaScript type is open (a status, a note, a record
      identifier) are [JsVal]s, with JavaScript's truthiness.
    - [window.confirm], toasts, the console, navigation and the calls to the
      remote store are recorded in a trace of [Effect]s; the answer of the
      user to a confirmation and the behaviour of the remote store are
      arguments of the handlers.
    - A handler runs against the state of the render it was created in and is
      not interleaved with another event. *)

From stdpp Require Import gmap strings list fin_maps sorting.
From Stdlib Require Import ZArith.
From stdpp Require Import pretty.

Local Open Scope string_scope.
Local Open Scope list_scope.

(** ** JavaScript values *)

Inductive JsVal : Type :=
  | JUndefined
  | JNull
  | JBool (b : bool)
  | JNum (n : Z)
  | JStr (s : string).

#[global] Instance JsVal_eq_dec : EqDecision JsVal.
Proof. solve_decision. Defined.

(** Truthiness: [undefined], [null], [false], [0] and the empty string are
    falsy. *)
Definition truthy (v : JsVal) : bool :=
  match v with
  | JUndefined | JNull => false
  | JBool b => b
  | JNum n => negb (Z.eqb n 0)
  | JStr s => match s with EmptyString => false | String _ _ => true end
  end.

(** [a || b] *)
Definition js_or (a b : JsVal) : JsVal := if truthy a then a else b.

(** ** Data held by the component *)

(** The select list of the classes query: [id, name, year_level, section,
    is_active]. *)
Record Class : Type := mkClass {
  cls_id : string;
  cls_name : string;
  cls_year_level : Z;
  cls_section : JsVal;
  cls_is_active : bool
}.

(** The select list of the students query: [id, student_number, first_name,
    last_name]. *)
Record Student : Type := mkStudent {
  stu_id : string;
  stu_student_number : string;
  stu_first_name : string;
  stu_last_name : string
}.

(** The select list of the attendance query: [id, student_id, status,
    notes]. *)
Record AttendanceRecord : Type := mkAttendanceRecord {
  rec_id : JsVal;
  rec_student_id : string;
  rec_status : JsVal;
  rec_notes : JsVal
}.

(** The signed-in user of the authentication context. *)
Record User : Type := mkUser { user_id : string }.

(** One value of the [attendance] object: [{status, notes}].  A property
    that is absent reads as [undefined]. *)
Record Entry : Type := mkEntry {
  status : JsVal;
  notes : JsVal
}.

(** The two fields the view edits through [handleAttendanceChange]. *)
Inductive Field : Type := FStatus | FNotes.

(** [recordData] of [handleSaveAttendance]. *)
Record RecordData : Type := mkRecordData {
  student_id : string;
  class_id : string;
  teacher_id : string;
  attendance_date : string;
  rd_status : JsVal;
  rd_notes : JsVal
}.

(** An element of [recordsToUpdate]: [{id, ...recordData}]. *)
Record UpdateRecord : Type := mkUpdateRecord {
  upd_id : JsVal;
  upd_data : RecordData
}.

#[global] Instance Class_eq_dec : EqDecision Class.
Proof. solve_decision. Defined.
#[global] Instance Student_eq_dec : EqDecision Student.
Proof. solve_decision. Defined.
#[global] Instance AttendanceRecord_eq_dec : EqDecision AttendanceRecord.
Proof. solve_decision. Defined.
#[global] Instance Entry_eq_dec : EqDecision Entry.
Proof. solve_decision. Defined.
#[global] Instance RecordData_eq_dec : EqDecision RecordData.
Proof. solve_decision. Defined.
#[global] Instance UpdateRecord_eq_dec : EqDecision UpdateRecord.
Proof. solve_decision. Defined.

(** The React state of the component. *)
Record State : Type := mkState {
  selectedClass : option Class;
  classes : list Class;
  students : list Student;
  attendance : gmap string Entry;
  loading : bool;
  saving : bool;
  currentDate : string;
  existingRecords : gmap string JsVal;
  hasChanges : bool
}.

(** The state of [useState] at mount; the date is today's, read from the
    clock. *)
Definition initialState (today : string) : State :=
  {| selectedClass := None; classes := []; students := [];
     attendance := ∅; loading := true; saving := false;
     currentDate := today; existingRecords := ∅; hasChanges := false |}.

(** ** Reading the dictionaries *)

(** [existingRecords[studentId]] *)
Definition existingId (existing : gmap string JsVal) (studentId : string) : JsVal :=
  default JUndefined (existing !! studentId).

(** [attendance[studentId]?.status] *)
Definition statusOf (att : gmap string Entry) (studentId : string) : JsVal :=
  match att !! studentId with Some e => status e | None => JUndefined end.

(** [attendance[studentId]?.notes] *)
Definition notesOf (att : gmap string Entry) (studentId : string) : JsVal :=
  match att !! studentId with Some e => notes e | None => JUndefined end.

(** ** Preparing the records of a save (handleSaveAttendance, the loop over
    [Object.entries(attendance)]) *)

Definition mkData (classId teacherId date studentId : string) (data : Entry) : RecordData :=
  {| student_id := studentId; class_id := classId; teacher_id := teacherId;
     attendance_date := date; rd_status := status data;
     rd_notes := js_or (notes data) JNull |}.

(** One iteration of the loop: [acc] is [(recordsToSave, recordsToUpdate)]. *)
Definition prepareStep (classId teacherId date : string)
    (existing : gmap string JsVal)
    (acc : list RecordData * list UpdateRecord) (kv : string * Entry)
    : list RecordData * list UpdateRecord :=
  let '(studentId, data) := kv in
  if negb (truthy (status data)) then acc
  else
    let recordData := mkData classId teacherId date studentId data in
    if truthy (existingId existing studentId)
    then (acc.1, acc.2 ++ [mkUpdateRecord (existingId existing studentId) recordData])
    else (acc.1 ++ [recordData], acc.2).

Definition prepareRecords (classId teacherId date : string)
    (att : gmap string Entry) (existing : gmap string JsVal)
    : list RecordData * list UpdateRecord :=
  foldl (prepareStep classId teacherId date existing) ([], []) (map_to_list att).

(** ** Building the editable state (the loop of loadStudentsAndAttendance
    over the fetched attendance records) *)

(** One iteration: [acc] is [(existingMap, attendanceMap)]. *)
Definition buildStep (acc : gmap string JsVal * gmap string Entry)
    (record : AttendanceRecord) : gmap string JsVal * gmap string Entry :=
  (<[rec_student_id record := rec_id record]> acc.1,
   <[rec_student_id record :=
       {| status := rec_status record;
          notes := js_or (rec_notes record) (JStr EmptyString) |}]> acc.2).

Definition buildMaps (attendanceData : list AttendanceRecord)
    : gmap string JsVal * gmap string Entry :=
  foldl buildStep (∅, ∅) attendanceData.

(** ** The rebuild of [existingRecords] after a save (handleSaveAttendance,
    the second loop over [Object.entries(attendance)]) *)

Definition rebuildStep (existing : gmap string JsVal)
    (updatedExisting : gmap string JsVal) (kv : string * Entry)
    : gmap string JsVal :=
  let '(studentId, data) := kv in
  if truthy (status data) && negb (truthy (existingId existing studentId))
  then <[studentId := JStr "new"]> updatedExisting
  else if truthy (existingId existing studentId)
  then <[studentId := existingId existing studentId]> updatedExisting
  else updatedExisting.

Definition rebuildExisting (att : gmap string Entry)
    (existing : gmap string JsVal) : gmap string JsVal :=
  foldl (rebuildStep existing) ∅ (map_to_list att).

(** ** Effects *)

(** The texts shown to the user, with the values interpolated in them. *)
Inductive Message : Type :=
  | MsgFailedLoadClasses        (* 'Failed to load classes' *)
  | MsgClassNotFound            (* 'Class not found' *)
  | MsgFailedLoadStudents       (* 'Failed to load students' *)
  | MsgFailedLoadAttendance     (* 'Failed to load existing attendance' *)
  | MsgFailedLoadData           (* 'Failed to load data' *)
  | MsgUnsavedSwitch            (* 'You have unsaved changes. Are you sure ...' *)
  | MsgMarkAll (st : string)    (* 'Mark ALL students as ...?' *)
  | MsgAllMarked (st : string)  (* 'All students marked as ...' *)
  | MsgMissingData              (* 'Missing required data' *)
  | MsgUnmarked (n : nat)       (* 'n students don't have attendance marked ...' *)
  | MsgSaved (n : nat)          (* 'Attendance saved successfully! n records processed.' *)
  | MsgFailedSave.              (* 'Failed to save attendance. Please try again.' *)

(** The requests sent to the remote store. *)
Inductive Call : Type :=
  | SelectClasses
  | SelectStudents (classId : string)
  | SelectAttendance (classId date : string)
  | InsertAttendance (rows : list RecordData)
  | UpdateAttendance (id : JsVal) (st nt : JsVal) (updated_at : string).

Inductive Effect : Type :=
  | Confirm (m : Message)                 (* window.confirm *)
  | ToastError (m : Message)              (* toast.error *)
  | ToastSuccess (m : Message)            (* toast.success *)
  | ConsoleError (label : string)         (* console.error *)
  | Navigate (path : string)              (* navigate *)
  | Request (c : Call).                   (* await supabase.from(...) ... *)

#[global] Instance Message_eq_dec : EqDecision Message.
Proof. solve_decision. Defined.
#[global] Instance Call_eq_dec : EqDecision Call.
Proof. solve_decision. Defined.
#[global] Instance Effect_eq_dec : EqDecision Effect.
Proof. solve_decision. Defined.

Definition isConfirm (e : Effect) : bool :=
  match e with Confirm _ => true | _ => false end.

Definition isToastError (e : Effect) : bool :=
  match e with ToastError _ => true | _ => false end.

Definition isSaved (e : Effect) : bool :=
  match e with ToastSuccess (MsgSaved _) => true | _ => false end.

(** The requests of a trace, in the order they were issued. *)
Definition requests (tr : list Effect) : list Call :=
  omap (λ e, match e with Request c => Some c | _ => None end) tr.

(** ** The remote store *)

(** What an awaited request gives back: the object [{data, error}] the
    client resolves to, or a rejection (the [await] throws). *)
Inductive Await (A : Type) : Type :=
  | Resolved (data : option A) (error : option string)
  | Rejected (reason : string).
Arguments Resolved {A} data error.
Arguments Rejected {A} reason.

(** The remote store as the component sees it: each request takes the store
    to a new store and answers.  Nothing is assumed of the answers. *)
Record Remote (Store : Type) : Type := mkRemote {
  selectClasses : Store → Store * Await (list Class);
  selectStudents : Store → string → Store * Await (list Student);
  selectAttendance : Store → string → string → Store * Await (list AttendanceRecord);
  insertAttendance : Store → list RecordData → Store * Await unit;
  updateAttendance : Store → JsVal → JsVal → JsVal → string → Store * Await unit
}.
Arguments selectClasses {Store} _ _.
Arguments selectStudents {Store} _ _ _.
Arguments selectAttendance {Store} _ _ _ _.
Arguments insertAttendance {Store} _ _ _.
Arguments updateAttendance {Store} _ _ _ _ _ _.

(** The failure of a write, if any: [{error}] with an error, or a
    rejection. *)
Definition failure {A} (r : Await A) : option string :=
  match r with
  | Resolved _ error => error
  | Rejected reason => Some reason
  end.

(** ** State setters *)

Definition setSelectedClass (v : option Class) (s : State) : State :=
  mkState v (classes s) (students s) (attendance s) (loading s) (saving s)
    (currentDate s) (existingRecords s) (hasChanges s).
Definition setClasses (v : list Class) (s : State) : State :=
  mkState (selectedClass s) v (students s) (attendance s) (loading s) (saving s)
    (currentDate s) (existingRecords s) (hasChanges s).
Definition setStudents (v : list Student) (s : State) : State :=
  mkState (selectedClass s) (classes s) v (attendance s) (loading s) (saving s)
    (currentDate s) (existingRecords s) (hasChanges s).
Definition setAttendance (v : gmap string Entry) (s : State) : State :=
  mkState (selectedClass s) (classes s) (students s) v (loading s) (saving s)
    (currentDate s) (existingRecords s) (hasChanges s).
Definition setLoading (v : bool) (s : State) : State :=
  mkState (selectedClass s) (classes s) (students s) (attendance s) v (saving s)
    (currentDate s) (existingRecords s) (hasChanges s).
Definition setSaving (v : bool) (s : State) : State :=
  mkState (selectedClass s) (classes s) (students s) (attendance s) (loading s) v
    (currentDate s) (existingRecords s) (hasChanges s).
Definition setCurrentDate (v : string) (s : State) : State :=
  mkState (selectedClass s) (classes s) (students s) (attendance s) (loading s)
    (saving s) v (existingRecords s) (hasChanges s).
Definition setExistingRecords (v : gmap string JsVal) (s : State) : State :=
  mkState (selectedClass s) (classes s) (students s) (attendance s) (loading s)
    (saving s) (currentDate s) v (hasChanges s).
Definition setHasChanges (v : bool) (s : State) : State :=
  mkState (selectedClass s) (classes s) (students s) (attendance s) (loading s)
    (saving s) (currentDate s) (existingRecords s) v.

(** ** The effects and the handlers of the component *)

Section Component.
Context {Store : Type} (R : Remote Store).

(** The effect run at mount and when the route parameter [classId]
    changes. *)
Definition loadClasses (classId : option string) (s : Store) (st : State)
    : State * Store * list Effect :=
  let '(s1, resp) := selectClasses R s in
  match resp with
  | Rejected _ =>
      (st, s1, [Request SelectClasses; ConsoleError "Error in loadClasses:";
                ToastError MsgFailedLoadClasses])
  | Resolved _ (Some _) =>
      (st, s1, [Request SelectClasses; ConsoleError "Error loading classes:";
                ToastError MsgFailedLoadClasses])
  | Resolved classesData None =>
      let st1 := setClasses (default [] classesData) st in
      match classId, classesData with
      | Some (String a cid), Some data =>
          match find (λ cls, bool_decide (cls_id cls = String a cid)) data with
          | Some foundClass =>
              (setSelectedClass (Some foundClass) st1, s1, [Request SelectClasses])
          | None =>
              (st1, s1, [Request SelectClasses; ToastError MsgClassNotFound;
                         Navigate "/teacher"])
          end
      | _, _ => (st1, s1, [Request SelectClasses])
      end
  end.

(** The effect run when [selectedClass] or [currentDate] changes. *)
Definition loadStudentsAndAttendance (s : Store) (st : State)
    : State * Store * list Effect :=
  match selectedClass st with
  | None => (setLoading false st, s, [])
  | Some cls =>
      let q1 := Request (SelectStudents (cls_id cls)) in
      let q2 := Request (SelectAttendance (cls_id cls) (currentDate st)) in
      let '(s1, r1) := selectStudents R s (cls_id cls) in
      match r1 with
      | Rejected _ =>
          (setLoading false st, s1,
           [q1; ConsoleError "Error in loadStudentsAndAttendance:";
            ToastError MsgFailedLoadData])
      | Resolved _ (Some _) =>
          (setLoading false st, s1,
           [q1; ConsoleError "Error loading students:";
            ToastError MsgFailedLoadStudents])
      | Resolved studentsData None =>
          let st1 := setStudents (default [] studentsData) st in
          let '(s2, r2) := selectAttendance R s1 (cls_id cls) (currentDate st) in
          match r2 with
          | Rejected _ =>
              (setLoading false st1, s2,
               [q1; q2; ConsoleError "Error in loadStudentsAndAttendance:";
                ToastError MsgFailedLoadData])
          | Resolved _ (Some _) =>
              (setLoading false st1, s2,
               [q1; q2; ConsoleError "Error loading attendance:";
                ToastError MsgFailedLoadAttendance])
          | Resolved attendanceData None =>
              let maps := buildMaps (default [] attendanceData) in
              (setLoading false
                 (setHasChanges false
                    (setAttendance maps.2 (setExistingRecords maps.1 st1))),
               s2, [q1; q2])
          end
      end
  end.

Definition handleClassChange (confirmed : bool) (newClassId : string)
    (st : State) : State * list Effect :=
  let switch :=
    let newClass := find (λ cls, bool_decide (cls_id cls = newClassId)) (classes st) in
    (setSelectedClass newClass st,
     [Navigate ("/teacher/attendance/" ++ newClassId)]) in
  if hasChanges st then
    if confirmed then (switch.1, Confirm MsgUnsavedSwitch :: switch.2)
    else (st, [Confirm MsgUnsavedSwitch])
  else switch.

(** The [onChange] of the date input: [setCurrentDate(e.target.value)]. *)
Definition handleDateChange (value : string) (st : State) : State * list Effect :=
  (setCurrentDate value st, []).

(** [{...entry, [field]: value}] *)
Definition setField (field : Field) (value : JsVal) (entry : Entry) : Entry :=
  match field with
  | FStatus => {| status := value; notes := notes entry |}
  | FNotes => {| status := status entry; notes := value |}
  end.

Definition handleAttendanceChange (studentId : string) (field : Field)
    (value : JsVal) (st : State) : State * list Effect :=
  let prev := attendance st in
  let entry := default (mkEntry JUndefined JUndefined) (prev !! studentId) in
  (setHasChanges true
     (setAttendance (<[studentId := setField field value entry]> prev) st),
   []).

(** The loop of handleQuickMark over the roster. *)
Definition markAll (st : string) (att : gmap string Entry)
    (roster : list Student) : gmap string Entry :=
  foldl (λ newAttendance student,
           <[stu_id student :=
               {| status := JStr st;
                  notes := js_or (notesOf att (stu_id student)) (JStr EmptyString) |}]>
             newAttendance)
        ∅ roster.

Definition handleQuickMark (confirmed : bool) (st0 : string) (st : State)
    : State * list Effect :=
  match selectedClass st, students st with
  | None, _ | _, [] => (st, [])
  | Some _, _ :: _ =>
      if confirmed then
        (setHasChanges true
           (setAttendance (markAll st0 (attendance st) (students st)) st),
         [Confirm (MsgMarkAll st0); ToastSuccess (MsgAllMarked st0)])
      else (st, [Confirm (MsgMarkAll st0)])
  end.

(** The sequential loop over [recordsToUpdate]; [now k] is the clock read
    by the [k]-th update of the batch. *)
Fixpoint updateLoop (now : nat → string) (k : nat) (s : Store)
    (recordsToUpdate : list UpdateRecord) : Store * list Effect * option string :=
  match recordsToUpdate with
  | [] => (s, [], None)
  | record :: rest =>
      let st := rd_status (upd_data record) in
      let nt := rd_notes (upd_data record) in
      let q := Request (UpdateAttendance (upd_id record) st nt (now k)) in
      let '(s1, resp) := updateAttendance R s (upd_id record) st nt (now k) in
      match resp with
      | Rejected reason => (s1, [q], Some reason)
      | Resolved _ (Some e) =>
          (s1, [q; ConsoleError "Error updating attendance:"], Some e)
      | Resolved _ None =>
          let '(s2, tr, res) := updateLoop now (S k) s1 rest in
          (s2, q :: tr, res)
      end
  end.

(** The writes of handleSaveAttendance: the insert of the new records,
    then the updates.  The result is [Some e] when a write failed and the
    [try] block was left. *)
Definition persistRecords (now : nat → string) (s : Store)
    (recordsToSave : list RecordData) (recordsToUpdate : list UpdateRecord)
    : Store * list Effect * option string :=
  match recordsToSave with
  | [] => updateLoop now 0 s recordsToUpdate
  | _ :: _ =>
      let q := Request (InsertAttendance recordsToSave) in
      let '(s1, resp) := insertAttendance R s recordsToSave in
      match resp with
      | Rejected reason => (s1, [q], Some reason)
      | Resolved _ (Some e) =>
          (s1, [q; ConsoleError "Error inserting attendance:"], Some e)
      | Resolved _ None =>
          let '(s2, tr, res) := updateLoop now 0 s1 recordsToUpdate in
          (s2, q :: tr, res)
      end
  end.

Definition unmarkedStudents (st : State) : list Student :=
  filter (λ student, truthy (statusOf (attendance st) (stu_id student)) = false)
         (students st).

Definition handleSaveAttendance (user : option User) (confirmed : bool)
    (now : nat → string) (s : Store) (st : State)
    : State * Store * list Effect :=
  match selectedClass st, user with
  | Some cls, Some u =>
      let n := length (unmarkedStudents st) in
      let ask := if bool_decide (0 < n)%nat then [Confirm (MsgUnmarked n)] else [] in
      if bool_decide (0 < n)%nat && negb confirmed then (st, s, ask)
      else
        let records :=
          prepareRecords (cls_id cls) (user_id u) (currentDate st)
            (attendance st) (existingRecords st) in
        let '(s1, tr, res) := persistRecords now s records.1 records.2 in
        match res with
        | None =>
            (setSaving false
               (setExistingRecords
                  (rebuildExisting (attendance st) (existingRecords st))
                  (setHasChanges false st)),
             s1,
             ask ++ tr ++
               [ToastSuccess (MsgSaved (length records.1 + length records.2))])
        | Some _ =>
            (setSaving false st, s1,
             ask ++ tr ++ [ConsoleError "Error saving attendance:";
                           ToastError MsgFailedSave])
        end
  | _, _ => (st, s, [ToastError MsgMissingData])
  end.

(** The effect of loadStudentsAndAttendance is run again after a render in
    which [selectedClass] or [currentDate] changed.  React compares the
    dependencies with [Object.is]: by value for the date, by identity for
    the class object, for which equality of the fields stands here.

    [thenEffect] is the reaction of the page to a handler that touches no
    other dependency of an effect, as the date input does, which leaves the
    class object in place.  A change of class also navigates: the route
    parameter changes, loadClasses runs again and installs a class object
    of its own, after which this effect runs once more; that reaction is
    not [thenEffect], and the properties of a change of class are stated
    of the handler and of each run of the two effects. *)
Definition depsChanged (old new : State) : bool :=
  bool_decide (selectedClass old ≠ selectedClass new
               ∨ currentDate old ≠ currentDate new).

Definition thenEffect (old : State) (s : Store) (r : State * list Effect)
    : State * Store * list Effect :=
  if depsChanged old r.1 then
    let '(st', s', tr) := loadStudentsAndAttendance s r.1 in
    (st', s', r.2 ++ tr)
  else (r.1, s, r.2).

(** ** The operations of the component *)

Inductive Op : Type :=
  | OpLoadClasses (classId : option string)
  | OpLoadStudentsAndAttendance
  | OpClassChange (confirmed : bool) (newClassId : string)
  | OpDateChange (value : string)
  | OpAttendanceChange (studentId : string) (field : Field) (value : JsVal)
  | OpQuickMark (confirmed : bool) (st : string)
  | OpSave (user : option User) (confirmed : bool) (now : nat → string).

Definition step (op : Op) (s : Store) (st : State) : State * Store * list Effect :=
  match op with
  | OpLoadClasses classId => loadClasses classId s st
  | OpLoadStudentsAndAttendance => loadStudentsAndAttendance s st
  | OpClassChange confirmed newClassId =>
      let r := handleClassChange confirmed newClassId st in (r.1, s, r.2)
  | OpDateChange value =>
      let r := handleDateChange value st in (r.1, s, r.2)
  | OpAttendanceChange studentId field value =>
      let r := handleAttendanceChange studentId field value st in (r.1, s, r.2)
  | OpQuickMark confirmed st0 =>
      let r := handleQuickMark confirmed st0 st in (r.1, s, r.2)
  | OpSave user confirmed now => handleSaveAttendance user confirmed now s st
  end.

(** Replaying a sequence of requests against the store: the store reached
    and, for each write, its failure if any. *)
Definition perform (s : Store) (c : Call) : Store * option string :=
  match c with
  | SelectClasses => let r := selectClasses R s in (r.1, failure r.2)
  | SelectStudents classId =>
      let r := selectStudents R s classId in (r.1, failure r.2)
  | SelectAttendance classId date =>
      let r := selectAttendance R s classId date in (r.1, failure r.2)
  | InsertAttendance rows =>
      let r := insertAttendance R s rows in (r.1, failure r.2)
  | UpdateAttendance id st nt stamp =>
      let r := updateAttendance R s id st nt stamp in (r.1, failure r.2)
  end.

Fixpoint replay (s : Store) (cs : list Call) : Store * list (option string) :=
  match cs with
  | [] => (s, [])
  | c :: rest =>
      let '(s1, o) := perform s c in
      let '(s2, os) := replay s1 rest in
      (s2, o :: os)
  end.

End Component.

(** ** A relational store answering the queries of the component

    The tables hold the columns the queries of the component name.  The
    three selects are the filters and orderings written in the component;
    ordering compares strings code point by code point, which stands for the
    collation of the server. *)

Record StudentRow : Type := mkStudentRow {
  row_student : Student;
  row_class_id : string;
  row_is_active : bool
}.

Record AttendanceRow : Type := mkAttendanceRow {
  row_record : AttendanceRecord;
  row_att_class_id : string;
  row_teacher_id : string;
  row_attendance_date : string;
  row_updated_at : option string
}.

Record Db : Type := mkDb {
  classes_table : list Class;
  students_table : list StudentRow;
  attendance_table : list AttendanceRow;
  next_id : Z
}.

Definition byYearLevel (a b : Class) : Prop :=
  (cls_year_level a ≤ cls_year_level b)%Z.
Definition byLastName (a b : Student) : Prop :=
  String.leb (stu_last_name a) (stu_last_name b) = true.

#[global] Instance byYearLevel_dec a b : Decision (byYearLevel a b).
Proof. unfold byYearLevel. apply _. Defined.
#[global] Instance byLastName_dec a b : Decision (byLastName a b).
Proof. unfold byLastName. apply _. Defined.

(** [from('classes').select(...).eq('is_active', true).order('year_level')] *)
Definition queryClasses (db : Db) : list Class :=
  merge_sort byYearLevel (filter (λ c, cls_is_active c = true) (classes_table db)).

(** [from('students').select(...).eq('class_id', classId)
      .eq('is_active', true).order('last_name')] *)
Definition queryStudents (db : Db) (classId : string) : list Student :=
  merge_sort byLastName
    (row_student <$>
       filter (λ r, row_class_id r = classId ∧ row_is_active r = true)
              (students_table db)).

(** [from('attendance_records').select(...).eq('class_id', classId)
      .eq('attendance_date', date)] *)
Definition queryAttendance (db : Db) (classId date : string) : list AttendanceRecord :=
  row_record <$>
    filter (λ r, row_att_class_id r = classId ∧ row_attendance_date r = date)
           (attendance_table db).

(** The writes of the reference store.  An insert is refused as a whole when
    a row would be the second record of a student for a date (the
    uniqueness constraint of the data model); otherwise the rows are added
    with fresh identifiers.  An update rewrites the rows of the given
    identifier. *)
Definition conflicts (table : list AttendanceRow) (rd : RecordData) : bool :=
  bool_decide
    (Exists (λ r, rec_student_id (row_record r) = student_id rd
                  ∧ row_attendance_date r = attendance_date rd) table).

Fixpoint insertRows (id : Z) (rows : list RecordData) : list AttendanceRow :=
  match rows with
  | [] => []
  | rd :: rest =>
      mkAttendanceRow
        (mkAttendanceRecord (JNum id) (student_id rd) (rd_status rd) (rd_notes rd))
        (class_id rd) (teacher_id rd) (attendance_date rd) None
      :: insertRows (id + 1) rest
  end.

Definition dbInsert (db : Db) (rows : list RecordData) : Db * Await unit :=
  if existsb (conflicts (attendance_table db)) rows
  then (db, Resolved None (Some "duplicate key value violates unique constraint"))
  else (mkDb (classes_table db) (students_table db)
          (attendance_table db ++ insertRows (next_id db) rows)
          (next_id db + Z.of_nat (length rows)),
        Resolved None None).

Definition dbUpdate (db : Db) (id st nt : JsVal) (stamp : string) : Db * Await unit :=
  (mkDb (classes_table db) (students_table db)
     ((λ r, if decide (rec_id (row_record r) = id)
            then mkAttendanceRow
                   (mkAttendanceRecord id (rec_student_id (row_record r)) st nt)
                   (row_att_class_id r) (row_teacher_id r)
                   (row_attendance_date r) (Some stamp)
            else r) <$> attendance_table db)
     (next_id db),
   Resolved None None).

Definition dbRemote : Remote Db :=
  {| selectClasses db := (db, Resolved (Some (queryClasses db)) None);
     selectStudents db classId := (db, Resolved (Some (queryStudents db classId)) None);
     selectAttendance db classId date :=
       (db, Resolved (Some (queryAttendance db classId date)) None);
     insertAttendance := dbInsert;
     updateAttendance := dbUpdate |}.

(** A store out of reach: every request is answered with an error. *)
Definition downRemote : Remote unit :=
  {| selectClasses _ := (tt, Resolved None (Some "Failed to fetch"));
     selectStudents _ _ := (tt, Resolved None (Some "Failed to fetch"));
     selectAttendance _ _ _ := (tt, Resolved None (Some "Failed to fetch"));
     insertAttendance _ _ := (tt, Resolved None (Some "Failed to fetch"));
     updateAttendance _ _ _ _ _ := (tt, Resolved None (Some "Failed to fetch")) |}.

(** ** Sample data *)

Definition classA : Class := mkClass "c1" "Year 7 A" 7 JNull true.
Definition classB : Class := mkClass "c2" "Year 8 B" 8 JNull true.
Definition alice : Student := mkStudent "s1" "1001" "Alice" "Adams".
Definition bob : Student := mkStudent "s2" "1002" "Bob" "Brown".
Definition carol : Student := mkStudent "s3" "1003" "Carol" "Clark".
Definition teacher : User := mkUser "t1".
Definition clock (k : nat) : string := "2024-03-01T09:00:00.000Z".

(** Alice and Bob are active in class A; Carol was in class A, has a record
    for the first of March, and has been deactivated since. *)
Definition sampleDb : Db :=
  mkDb [classA; classB]
       [mkStudentRow alice "c1" true; mkStudentRow bob "c1" true;
        mkStudentRow carol "c1" false]
       [mkAttendanceRow (mkAttendanceRecord (JNum 99) "s2" (JStr "absent") (JStr "sick"))
          "c1" "t1" "2024-03-01" None;
        mkAttendanceRow (mkAttendanceRecord (JNum 100) "s3" (JStr "present") JNull)
          "c1" "t1" "2024-03-01" None]
       101.

(** Class A selected on the first of March, before the load. *)
Definition selectedA : State :=
  setCurrentDate "2024-03-01"
    (setSelectedClass (Some classA)
       (setClasses [classA; classB] (initialState "2024-03-01"))).

(** The same page after its load. *)
Definition loadedA : State := (loadStudentsAndAttendance dbRemote sampleDb selectedA).1.1.

(** The teacher marks Alice present: an edit not yet saved. *)
Definition editedA : State :=
  (handleAttendanceChange "s1" FStatus (JStr "present") loadedA).1.

(** Bob's record, changed to late: an element of [recordsToUpdate]. *)
Definition bobLate : UpdateRecord :=
  mkUpdateRecord (JNum 99)
    (mkRecordData "s2" "c1" "t1" "2024-03-01" (JStr "late") (JStr "sick")).

(** Class B selected after class A was loaded, the effect not yet run. *)
Definition switchedToB : State := setSelectedClass (Some classB) loadedA.

(** ** Notions used to state the properties *)

(** What the first loop of a save contributes for one entry. *)
Definition insertOf (classId teacherId date : string) (existing : gmap string JsVal)
    (kv : string * Entry) : option RecordData :=
  if truthy (status kv.2) && negb (truthy (existingId existing kv.1))
  then Some (mkData classId teacherId date kv.1 kv.2) else None.

Definition updateOf (classId teacherId date : string) (existing : gmap string JsVal)
    (kv : string * Entry) : option UpdateRecord :=
  if truthy (status kv.2) && truthy (existingId existing kv.1)
  then Some (mkUpdateRecord (existingId existing kv.1)
               (mkData classId teacherId date kv.1 kv.2))
  else None.

(** The identifier the rebuild after a save stores for an entry, if it
    stores one. *)
Definition rebuiltId (existing : gmap string JsVal) (kv : string * Entry) : option JsVal :=
  if truthy (status kv.2) && negb (truthy (existingId existing kv.1))
  then Some (JStr "new")
  else if truthy (existingId existing kv.1)
  then Some (existingId existing kv.1)
  else None.

(** The entry the load installs for a fetched record. *)
Definition entryOf (r : AttendanceRecord) : Entry :=
  {| status := rec_status r; notes := js_or (rec_notes r) (JStr EmptyString) |}.

(** The last fetched record of a student: the one whose values the load
    keeps when a student has several. *)
Definition lastRecordOf (E : list AttendanceRecord) (sid : string) : option AttendanceRecord :=
  last (filter (λ r, rec_student_id r = sid) E).

(** The notes of a student as the view shows them:
    [studentAttendance.notes || ''] with
    [studentAttendance = attendance[student.id] || {}]. *)
Definition shownNotes (att : gmap string Entry) (studentId : string) : JsVal :=
  js_or (notesOf att studentId) (JStr EmptyString).

(** The notes of a student as a save writes them: [data.notes || null]. *)
Definition savedNotes (att : gmap string Entry) (studentId : string) : JsVal :=
  js_or (notesOf att studentId) JNull.

(** The requests a save has to issue, in order: one insert carrying all new
    records when there is one at least, then one update per record. *)
Definition updateCall (now : nat → string) (k : nat) (u : UpdateRecord) : Call :=
  UpdateAttendance (upd_id u) (rd_status (upd_data u)) (rd_notes (upd_data u)) (now k).

Fixpoint plannedUpdates (now : nat → string) (k : nat) (l : list UpdateRecord) : list Call :=
  match l with
  | [] => []
  | u :: rest => updateCall now k u :: plannedUpdates now (S k) rest
  end.

Definition plannedInsert (recordsToSave : list RecordData) : list Call :=
  match recordsToSave with
  | [] => []
  | _ :: _ => [InsertAttendance recordsToSave]
  end.

Definition planned (now : nat → string) (recordsToSave : list RecordData)
    (recordsToUpdate : list UpdateRecord) : list Call :=
  plannedInsert recordsToSave ++ plannedUpdates now 0 recordsToUpdate.

(** What a run of writes looks like: the first [n] planned requests were
    issued, in order, the store is the one they produced, and either all of
    them succeeded and nothing is left, or the last one issued failed. *)
Definition sequentialRun {Store} (R : Remote Store) (s : Store) (plan : list Call)
    (out : Store * list Effect * option string) : Prop :=
  ∃ (n : nat) (outcomes : list (option string)),
    (n ≤ length plan)%nat
    ∧ requests out.1.2 = take n plan
    ∧ replay R s (take n plan) = (out.1.1, outcomes)
    ∧ match out.2 with
      | None => n = length plan ∧ Forall (λ o, o = None) outcomes
      | Some e => ∃ pre, outcomes = pre ++ [Some e] ∧ Forall (λ o, o = None) pre
      end.

(** The load goes through: a class is selected and both fetches answer
    without an error. *)
Definition loadSucceeds {Store} (R : Remote Store) (s : Store) (st : State) : bool :=
  match selectedClass st with
  | None => false
  | Some cls =>
      let r1 := selectStudents R s (cls_id cls) in
      match failure r1.2 with
      | Some _ => false
      | None =>
          match failure (selectAttendance R r1.1 (cls_id cls) (currentDate st)).2 with
          | Some _ => false
          | None => true
          end
      end
  end.

(** The bulk mark is applied: a class is selected, the roster is not empty
    and the user confirmed. *)
Definition quickMarkApplies (confirmed : bool) (st : State) : bool :=
  match selectedClass st, students st with
  | Some _, _ :: _ => confirmed
  | _, _ => false
  end.

(** The store accepts a sequence of writes: replayed in order from the
    store [s], every request of the plan is answered without an error. *)
Definition writesSucceed {Store} (R : Remote Store) (s : Store) (plan : list Call) : bool :=
  forallb (λ o, bool_decide (o = None)) (replay R s plan).2.

(** The save goes through: a class is selected, a user is signed in, every
    student of the roster has a status or the user accepted to save without
    them, and the store accepts every write planned for the records
    prepared from the page. *)
Definition saveSucceeds {Store} (R : Remote Store) (user : option User)
    (confirmed : bool) (now : nat → string) (s : Store) (st : State) : bool :=
  match selectedClass st, user with
  | Some cls, Some u =>
      let records :=
        prepareRecords (cls_id cls) (user_id u) (currentDate st)
          (attendance st) (existingRecords st) in
      (bool_decide (unmarkedStudents st = []) || confirmed)
      && writesSucceed R s (planned now records.1 records.2)
  | _, _ => false
  end.

(** * The rest of the page and its callers *)

(** ** Conversions to strings *)

(** [String(v)] for the primitive values: the text of a template literal and
    the name of a property.  Numbers are integers below 10^21, which print
    in decimal. *)
Definition toString (v : JsVal) : string :=
  match v with
  | JUndefined => "undefined"
  | JNull => "null"
  | JBool true => "true"
  | JBool false => "false"
  | JNum n => pretty n
  | JStr s => s
  end.

(** ** The statistics of the page (getAttendanceStats) *)

(** The value of a counter: a number of students, or [NaN]. *)
Inductive Counter : Type :=
  | Count (n : nat)
  | NaN.

#[global] Instance Counter_eq_dec : EqDecision Counter.
Proof. solve_decision. Defined.

(** [stats[key]++]: the property read as a number, plus one; a property that
    is absent reads as [undefined], which is [NaN] as a number. *)
Definition increment (key : string) (stats : gmap string Counter) : gmap string Counter :=
  <[key := match stats !! key with Some (Count n) => Count (S n) | _ => NaN end]> stats.

(** [stats.key] read as a number. *)
Definition counter (stats : gmap string Counter) (key : string) : Counter :=
  default NaN (stats !! key).

(** [a + b] on counters. *)
Definition counterPlus (a b : Counter) : Counter :=
  match a, b with
  | Count x, Count y => Count (x + y)
  | _, _ => NaN
  end.

(** [{ present: 0, absent: 0, late: 0, unmarked: 0 }] and its later values. *)
Definition mkStats (present absent late unmarked : Counter) : gmap string Counter :=
  <["present" := present]>
    (<["absent" := absent]> (<["late" := late]> {["unmarked" := unmarked]})).

(** The loop over the roster: a student with a status adds one to the
    counter named by the status, a student without adds one to
    [unmarked]. *)
Definition getAttendanceStats (st : State) : gmap string Counter :=
  foldl (λ stats student,
           let status := statusOf (attendance st) (stu_id student) in
           if truthy status then increment (toString status) stats
           else increment "unmarked" stats)
        (mkStats (Count 0) (Count 0) (Count 0) (Count 0))
        (students st).

(** The count shown above the save button:
    [stats.present + stats.late + stats.absent]. *)
Definition markedCount (stats : gmap string Counter) : Counter :=
  counterPlus (counterPlus (counter stats "present") (counter stats "late"))
              (counter stats "absent").

(** The count shown in the save button:
    [Object.keys(attendance).filter(id => attendance[id].status).length]. *)
Definition recordsCount (att : gmap string Entry) : nat :=
  length (filter (λ kv, truthy (status kv.2) = true) (map_to_list att)).

(** ** The navigation bar (ResponsiveAppBar) *)

(** The profile row joined with the name of its default class:
    [role], [default_class_id] and [classes?.name]. *)
Record Profile : Type := mkProfile {
  prof_role : JsVal;
  prof_default_class_id : JsVal;
  prof_class_name : JsVal
}.

(** An entry of the navigation bar: [{pageName, link, protected}]. *)
Record Page : Type := mkPage {
  pageName : string;
  link : string;
  protected : bool
}.

#[global] Instance Page_eq_dec : EqDecision Page.
Proof. solve_decision. Defined.

(** The entries offered, by session, role and default class. *)
Definition getNavigationPages (user : option User) (profile : option Profile) : list Page :=
  match user, profile with
  | Some _, Some profile =>
      [mkPage "Dashboard" "/" true]
      ++ (if decide (prof_role profile = JStr "teacher") then
            [mkPage "Take Attendance" "/teacher" true]
            ++ (if truthy (prof_default_class_id profile) then
                  [mkPage ("Quick: " +:+ toString (js_or (prof_class_name profile)
                                                      (JStr "Default Class")))
                          ("/teacher/attendance/"
                             +:+ toString (prof_default_class_id profile))
                          true]
                else [])
          else [])
      ++ (if decide (prof_role profile = JStr "admin") then
            [mkPage "Teacher Dashboard" "/teacher" true;
             mkPage "Admin Panel" "/admin" true]
          else [])
  | _, _ =>
      [mkPage "Sign In" "/auth/sign-in" false;
       mkPage "Sign Up" "/auth/sign-up" false]
  end.

(** [isCurrentPage], with [pathname] the path of the current location. *)
Definition isCurrentPage (pathname : string) (link : string) : bool :=
  if bool_decide (link = "/") && bool_decide (pathname = "/") then true
  else if negb (bool_decide (link = "/")) && String.prefix link pathname then true
  else false.

(** ** More sample data *)

(** A teacher whose default class is class A. *)
Definition teacherProfile : Profile := mkProfile (JStr "teacher") (JStr "c1") (JStr "Year 7 A").

(** The teacher changes Bob to late and leaves Alice unmarked. *)
Definition bobEditedA : State :=
  (handleAttendanceChange "s2" FStatus (JStr "late") loadedA).1.

(** A store whose attendance table is out of reach while the rest
    answers. *)
Definition attendanceDownRemote : Remote Db :=
  {| selectClasses := selectClasses dbRemote;
     selectStudents := selectStudents dbRemote;
     selectAttendance db _ _ := (db, Resolved None (Some "Failed to fetch"));
     insertAttendance := insertAttendance dbRemote;
     updateAttendance := updateAttendance dbRemote |}.

(** ** More notions used to state the properties *)

(** The paths of the routes declared at the root of the application; the
    last one, ["/teacher/attendance/:classId?"], by the prefix that comes
    before its parameter. *)
Definition staticRoutes : list string :=
  ["/auth/sign-in"; "/auth/sign-up"; "/"; "/teacher"; "/admin"].
Definition attendanceRoute : string := "/teacher/attendance/".

(** The entry of the navigation bar that opens the default class. *)
Definition quickPage (profile : Profile) : Page :=
  mkPage ("Quick: " +:+ toString (js_or (prof_class_name profile) (JStr "Default Class")))
         (attendanceRoute +:+ toString (prof_default_class_id profile))
         true.

(** A status the page knows: unset, or one of its three buttons. *)
Definition knownStatus (v : JsVal) : Prop :=
  truthy v = false ∨ v = JStr "present" ∨ v = JStr "late" ∨ v = JStr "absent".

#[global] Instance knownStatus_dec v : Decision (knownStatus v).
Proof. unfold knownStatus. apply _. Defined.

(** The students of a roster whose entry has a given status. *)
Definition countStatus (att : gmap string Entry) (roster : list Student) (s : string) : nat :=
  length (filter (λ student, statusOf att (stu_id student) = JStr s) roster).

(** The students of a roster whose entry has no status. *)
Definition countUnmarked (att : gmap string Entry) (roster : list Student) : nat :=
  length (filter (λ student, truthy (statusOf att (stu_id student)) = false) roster).

(** A page left without a selected class: no class is selected, while the
    roster, the editable map, the existing-id map and the dirty flag are
    those of [st]. *)
Definition staleAfter (st x : State) : Prop :=
  selectedClass x = None
  ∧ students x = students st
  ∧ attendance x = attendance st
  ∧ existingRecords x = existingRecords st
  ∧ hasChanges x = hasChanges st.

(** An effect of the writes: a request or a line on the console. *)
Definition isWrite (e : Effect) : bool :=
  match e with Request _ | ConsoleError _ => true | _ => false end.

(** The prompt of the validation. *)
Definition askUnmarked (st : State) : list Effect :=
  if bool_decide (0 < length (unmarkedStudents st))%nat
  then [Confirm (MsgUnmarked (length (unmarkedStudents st)))] else [].

(** ** Proof steps *)

(** Membership in a list written out, and its refutation. *)
Ltac in_list := repeat first [apply list_elem_of_here | apply list_elem_of_further].
Ltac not_in_list H :=
  repeat (apply elem_of_cons in H as [H|H]; [by cbn in H|]);
  by apply elem_of_nil in H.

(** Deciding a boolean test on written-out data. *)
Ltac decide_bool :=
  repeat match goal with
         | |- context [decide (?b = true)] =>
             let v := eval vm_compute in b in
             change b with v;
             first [ rewrite (decide_True (P := true = true)) by reflexivity
                   | rewrite (decide_False (P := false = true)) by discriminate ]
         end.

(** * Properties *)

(** ** JavaScript values *)

Lemma js_or_idem a b : js_or (js_or a b) b = js_or a b.
Proof.
  unfold js_or. destruct (truthy a) eqn:Ha; [by rewrite Ha|].
  by destruct (truthy b).
Qed.

Lemma js_or_empty_null a : js_or (js_or a (JStr EmptyString)) JNull = js_or a JNull.
Proof. unfold js_or. destruct (truthy a) eqn:Ha; [by rewrite Ha|done]. Qed.

Lemma js_or_string n : js_or (JStr n) (JStr EmptyString) = JStr n.
Proof. by destruct n. Qed.

(** ** The records of a save *)

Lemma prepare_foldl classId teacherId date existing l acc :
  foldl (prepareStep classId teacherId date existing) acc l =
  (acc.1 ++ omap (insertOf classId teacherId date existing) l,
   acc.2 ++ omap (updateOf classId teacherId date existing) l).
Proof.
  revert acc. induction l as [|[sid data] l IH]; intros [ins upd]; simpl.
  - by rewrite !app_nil_r.
  - rewrite IH. unfold insertOf, updateOf. simpl.
    destruct (truthy (status data)); simpl; [|done].
    destruct (truthy (existingId existing sid)); simpl;
      by rewrite <- ?app_assoc.
Qed.

Lemma prepareRecords_eq classId teacherId date att existing :
  prepareRecords classId teacherId date att existing =
  (omap (insertOf classId teacherId date existing) (map_to_list att),
   omap (updateOf classId teacherId date existing) (map_to_list att)).
Proof. unfold prepareRecords. by rewrite prepare_foldl. Qed.

Lemma elem_of_prepared_inserts classId teacherId date att existing rd :
  rd ∈ (prepareRecords classId teacherId date att existing).1 ↔
  ∃ sid data, att !! sid = Some data ∧ truthy (status data) = true
    ∧ truthy (existingId existing sid) = false
    ∧ rd = mkData classId teacherId date sid data.
Proof.
  rewrite prepareRecords_eq. cbn [fst]. rewrite list_elem_of_omap. split.
  - intros ([sid data] & Hin%elem_of_map_to_list & Hf).
    unfold insertOf in Hf. cbn [fst snd] in Hf.
    destruct (truthy (status data)) eqn:Hs; [|done].
    destruct (truthy (existingId existing sid)) eqn:He; [done|].
    exists sid, data. simpl in Hf. by simplify_eq.
  - intros (sid & data & Hatt & Hs & He & ->). exists (sid, data).
    split; [by apply elem_of_map_to_list|].
    unfold insertOf. cbn [fst snd]. by rewrite Hs, He.
Qed.

Lemma elem_of_prepared_updates classId teacherId date att existing u :
  u ∈ (prepareRecords classId teacherId date att existing).2 ↔
  ∃ sid data, att !! sid = Some data ∧ truthy (status data) = true
    ∧ truthy (existingId existing sid) = true
    ∧ u = mkUpdateRecord (existingId existing sid)
            (mkData classId teacherId date sid data).
Proof.
  rewrite prepareRecords_eq. cbn [snd]. rewrite list_elem_of_omap. split.
  - intros ([sid data] & Hin%elem_of_map_to_list & Hf).
    unfold updateOf in Hf. cbn [fst snd] in Hf.
    destruct (truthy (status data)) eqn:Hs; [|done].
    destruct (truthy (existingId existing sid)) eqn:He; [|done].
    exists sid, data. simpl in Hf. by simplify_eq.
  - intros (sid & data & Hatt & Hs & He & ->). exists (sid, data).
    split; [by apply elem_of_map_to_list|].
    unfold updateOf. cbn [fst snd]. by rewrite Hs, He.
Qed.

(** When every stored identifier is truthy, the truthiness test of the loop
    is a test of key membership. *)
Lemma existingId_falsy existing sid :
  map_Forall (λ _ rid, truthy rid = true) existing →
  truthy (existingId existing sid) = false ↔ existing !! sid = None.
Proof.
  intros Hall. unfold existingId. destruct (existing !! sid) as [rid|] eqn:Hsid; simpl.
  - rewrite (Hall sid rid Hsid). by split.
  - by split.
Qed.

Lemma existingId_truthy existing sid :
  map_Forall (λ _ rid, truthy rid = true) existing →
  truthy (existingId existing sid) = true ↔
  ∃ rid, existing !! sid = Some rid ∧ existingId existing sid = rid.
Proof.
  intros Hall. unfold existingId. destruct (existing !! sid) as [rid|] eqn:Hsid; simpl.
  - rewrite (Hall sid rid Hsid). split; [by exists rid|done].
  - split; [done|]. by intros (rid & ? & _).
Qed.

Lemma omap_fst_NoDup {A B} (f : string * A → option B) (g : B → string) l :
  (∀ kv b, f kv = Some b → g b = kv.1) →
  NoDup l.*1 → NoDup (g <$> omap f l).
Proof.
  intros Hf. induction l as [|kv l IH]; simpl; [constructor|].
  intros [Hnotin Hnd]%NoDup_cons.
  destruct (f kv) as [b|] eqn:Hb; simpl; [|by apply IH].
  apply NoDup_cons. split; [|by apply IH].
  rewrite (Hf _ _ Hb). intros (b' & Hg & Hin)%list_elem_of_fmap.
  apply list_elem_of_omap in Hin as (kv' & Hkv' & Hb').
  apply Hnotin. rewrite Hg, (Hf _ _ Hb'). apply list_elem_of_fmap. by exists kv'.
Qed.

Lemma prepared_students_NoDup classId teacherId date att existing :
  NoDup (student_id <$> (prepareRecords classId teacherId date att existing).1)
  ∧ NoDup ((student_id ∘ upd_data)
             <$> (prepareRecords classId teacherId date att existing).2).
Proof.
  rewrite prepareRecords_eq. cbn [fst snd]. split.
  - apply omap_fst_NoDup; [|apply NoDup_fst_map_to_list].
    intros [sid data] b. unfold insertOf. case_match; [|done]. by intros [= <-].
  - apply omap_fst_NoDup; [|apply NoDup_fst_map_to_list].
    intros [sid data] b. unfold updateOf. case_match; [|done]. by intros [= <-].
Qed.

(** C1.  The records prepared by a save (handleSaveAttendance), for any
    editable map and any existing-id map whose record identifiers are
    truthy, as identifiers assigned by the store and the placeholder of the
    rebuild are: the new records are exactly the entries with a non-empty
    status whose student is not a key of the existing-id map, each with
    student, class, teacher, date, status and notes; the records to update
    are exactly the entries with a non-empty status whose student is a key,
    each with the stored record identifier, status and notes; an entry whose
    status is unset or empty is in neither sequence, and no student is
    submitted twice. *)
Theorem prepareRecords_partition (classId teacherId date : string)
    (att : gmap string Entry) (existing : gmap string JsVal) :
  map_Forall (λ _ rid, truthy rid = true) existing →
  let records := prepareRecords classId teacherId date att existing in
  (∀ rd, rd ∈ records.1 ↔
     ∃ sid data, att !! sid = Some data ∧ truthy (status data) = true
       ∧ existing !! sid = None
       ∧ rd = mkRecordData sid classId teacherId date (status data)
                (js_or (notes data) JNull))
  ∧ (∀ u, u ∈ records.2 ↔
     ∃ sid data rid, att !! sid = Some data ∧ truthy (status data) = true
       ∧ existing !! sid = Some rid
       ∧ u = mkUpdateRecord rid
               (mkRecordData sid classId teacherId date (status data)
                  (js_or (notes data) JNull)))
  ∧ (∀ sid data, att !! sid = Some data → truthy (status data) = false →
       (sid ∉ student_id <$> records.1)
       ∧ (sid ∉ (student_id ∘ upd_data) <$> records.2))
  ∧ NoDup ((student_id <$> records.1) ++ ((student_id ∘ upd_data) <$> records.2)).
Proof.
  intros Hall records.
  assert (Hins : ∀ rd, rd ∈ records.1 ↔
     ∃ sid data, att !! sid = Some data ∧ truthy (status data) = true
       ∧ existing !! sid = None
       ∧ rd = mkData classId teacherId date sid data).
  { intros rd. subst records. rewrite elem_of_prepared_inserts.
    split; intros (sid & data & Ha & Hs & He & Hrd); exists sid, data;
      repeat split; try done; by apply (existingId_falsy _ _ Hall). }
  assert (Hupd : ∀ u, u ∈ records.2 ↔
     ∃ sid data rid, att !! sid = Some data ∧ truthy (status data) = true
       ∧ existing !! sid = Some rid
       ∧ u = mkUpdateRecord rid (mkData classId teacherId date sid data)).
  { intros u. subst records. rewrite elem_of_prepared_updates. split.
    - intros (sid & data & Ha & Hs & He & Hu).
      apply (existingId_truthy _ _ Hall) in He as (rid & Hrid & Hid).
      exists sid, data, rid. rewrite Hid in Hu. by repeat split.
    - intros (sid & data & rid & Ha & Hs & He & Hu). exists sid, data.
      assert (Hid : existingId existing sid = rid) by (unfold existingId; by rewrite He).
      repeat split; try done.
      + apply (existingId_truthy _ _ Hall). by exists rid.
      + by rewrite Hid. }
  split; [exact Hins|]. split; [exact Hupd|]. split.
  - intros sid data Hatt Hs. split.
    + intros (rd & Hsid & Hrd)%list_elem_of_fmap.
      apply Hins in Hrd as (sid' & data' & Hatt' & Hs' & _ & Heq).
      subst rd. simpl in Hsid. congruence.
    + intros (u & Hsid & Hu)%list_elem_of_fmap.
      apply Hupd in Hu as (sid' & data' & rid & Hatt' & Hs' & _ & Heq).
      subst u. simpl in Hsid. congruence.
  - destruct (prepared_students_NoDup classId teacherId date att existing)
      as [Hnd1 Hnd2].
    apply NoDup_app. split; [exact Hnd1|]. split; [|exact Hnd2].
    intros sid (rd & Hsid & Hrd)%list_elem_of_fmap (u & Hsid' & Hu)%list_elem_of_fmap.
    apply Hins in Hrd as (sid1 & data1 & _ & _ & Hnone & Heq1).
    apply Hupd in Hu as (sid2 & data2 & rid & _ & _ & Hsome & Heq2).
    subst rd u. simpl in Hsid, Hsid'. congruence.
Qed.

Lemma prepareRecords_partition_witness :
  let records :=
    prepareRecords "c1" "t1" "2024-03-01" (attendance editedA) (existingRecords editedA) in
  (∀ rd, rd ∈ records.1 ↔
     ∃ sid data, attendance editedA !! sid = Some data ∧ truthy (status data) = true
       ∧ existingRecords editedA !! sid = None
       ∧ rd = mkRecordData sid "c1" "t1" "2024-03-01" (status data)
                (js_or (notes data) JNull))
  ∧ (∀ u, u ∈ records.2 ↔
     ∃ sid data rid, attendance editedA !! sid = Some data ∧ truthy (status data) = true
       ∧ existingRecords editedA !! sid = Some rid
       ∧ u = mkUpdateRecord rid
               (mkRecordData sid "c1" "t1" "2024-03-01" (status data)
                  (js_or (notes data) JNull)))
  ∧ (∀ sid data, attendance editedA !! sid = Some data → truthy (status data) = false →
       (sid ∉ student_id <$> records.1)
       ∧ (sid ∉ (student_id ∘ upd_data) <$> records.2))
  ∧ NoDup ((student_id <$> records.1) ++ ((student_id ∘ upd_data) <$> records.2)).
Proof.
  apply (prepareRecords_partition "c1" "t1" "2024-03-01"
           (attendance editedA) (existingRecords editedA)).
  refine (bool_decide_unpack _ _). vm_compute. exact I.
Defined.

(** The scenarios of the specification: Alice marked and new, Bob unset;
    Bob's saved record changed from absent to late. *)
Example prepareRecords_new_student :
  prepareRecords "c1" "t1" "2024-03-01"
    {[ "1" := {| status := JStr "present"; notes := JUndefined |} ]} ∅
  = ([mkRecordData "1" "c1" "t1" "2024-03-01" (JStr "present") JNull], []).
Proof. by vm_compute. Qed.

Example prepareRecords_changed_student :
  prepareRecords "c1" "t1" "2024-03-01"
    {[ "2" := {| status := JStr "late"; notes := JStr EmptyString |} ]}
    {[ "2" := JNum 99 ]}
  = ([], [mkUpdateRecord (JNum 99)
            (mkRecordData "2" "c1" "t1" "2024-03-01" (JStr "late") JNull)]).
Proof. by vm_compute. Qed.

(** ** The rebuild of the existing-id map *)

Lemma rebuildStep_eq existing m kv :
  rebuildStep existing m kv =
  match rebuiltId existing kv with Some v => <[kv.1 := v]> m | None => m end.
Proof.
  destruct kv as [sid data]. unfold rebuildStep, rebuiltId. cbn [fst snd].
  destruct (truthy (status data) && negb (truthy (existingId existing sid))); [done|].
  by destruct (truthy (existingId existing sid)).
Qed.

Lemma rebuild_foldl_lookup existing (l : list (string * Entry)) m sid :
  NoDup l.*1 →
  foldl (rebuildStep existing) m l !! sid =
  match (list_to_map l : gmap string Entry) !! sid with
  | Some data =>
      match rebuiltId existing (sid, data) with
      | Some v => Some v
      | None => m !! sid
      end
  | None => m !! sid
  end.
Proof.
  revert m. induction l as [|[k data] l IH]; intros m; [done|].
  intros [Hk Hnd]%NoDup_cons. cbn [foldl list_to_map foldr uncurry fst snd].
  rewrite IH by done. rewrite rebuildStep_eq. cbn [fst snd].
  destruct (decide (k = sid)) as [->|Hne].
  - rewrite lookup_insert_eq.
    rewrite (not_elem_of_list_to_map_1 _ _ Hk).
    destruct (rebuiltId existing (sid, data)); [by rewrite lookup_insert_eq|done].
  - rewrite lookup_insert_ne by done.
    assert (Hm : match rebuiltId existing (k, data) with
                 | Some v => <[k:=v]> m
                 | None => m
                 end !! sid = m !! sid).
    { destruct (rebuiltId existing (k, data)); [by rewrite lookup_insert_ne|done]. }
    by rewrite Hm.
Qed.

Lemma rebuildExisting_lookup att existing sid :
  rebuildExisting att existing !! sid =
  match att !! sid with
  | Some data => rebuiltId existing (sid, data)
  | None => None
  end.
Proof.
  unfold rebuildExisting.
  rewrite rebuild_foldl_lookup by apply NoDup_fst_map_to_list.
  rewrite list_to_map_to_list. destruct (att !! sid) as [data|]; [|done].
  by destruct (rebuiltId existing (sid, data)).
Qed.

(** The rebuild keeps the stored identifiers truthy. *)
Lemma rebuildExisting_truthy att existing :
  map_Forall (λ _ rid, truthy rid = true) (rebuildExisting att existing).
Proof.
  intros sid rid. rewrite rebuildExisting_lookup.
  destruct (att !! sid) as [data|]; [|done]. unfold rebuiltId. cbn [fst snd].
  destruct (truthy (status data) && negb (truthy (existingId existing sid)));
    [by intros [= <-]|].
  destruct (truthy (existingId existing sid)) eqn:He; [|done]. by intros [= <-].
Qed.

(** ** Building the editable state *)

Lemma buildMaps_snoc E r : buildMaps (E ++ [r]) = buildStep (buildMaps E) r.
Proof. unfold buildMaps. by rewrite foldl_app. Qed.

Lemma lastRecordOf_snoc E r sid :
  lastRecordOf (E ++ [r]) sid =
  if decide (rec_student_id r = sid) then Some r else lastRecordOf E sid.
Proof.
  unfold lastRecordOf. rewrite filter_app, filter_cons, filter_nil.
  case_decide; [by rewrite last_snoc | by rewrite app_nil_r].
Qed.

Lemma buildMaps_lookup E sid :
  (buildMaps E).1 !! sid = rec_id <$> lastRecordOf E sid
  ∧ (buildMaps E).2 !! sid = entryOf <$> lastRecordOf E sid.
Proof.
  induction E as [|r E [IH1 IH2]] using rev_ind; [done|].
  rewrite buildMaps_snoc, lastRecordOf_snoc. unfold buildStep. cbn [fst snd].
  rewrite !lookup_insert. case_decide; simpl; [done|]. by rewrite IH1, IH2.
Qed.

Lemma lastRecordOf_Some E sid r :
  lastRecordOf E sid = Some r → r ∈ E ∧ rec_student_id r = sid.
Proof.
  unfold lastRecordOf. intros H%last_Some_elem_of.
  by apply list_elem_of_filter in H as [? ?].
Qed.

Lemma lastRecordOf_is_Some E sid :
  sid ∈ rec_student_id <$> E ↔ is_Some (lastRecordOf E sid).
Proof.
  split.
  - intros (r & -> & Hr)%list_elem_of_fmap. unfold lastRecordOf.
    destruct (last _) eqn:Hl; [by eexists|].
    apply last_None in Hl.
    assert (r ∈ filter (λ r0, rec_student_id r0 = rec_student_id r) E) as Hin
      by by apply list_elem_of_filter.
    rewrite Hl in Hin. by apply elem_of_nil in Hin.
  - intros [r [Hr <-]%lastRecordOf_Some]. apply list_elem_of_fmap. by exists r.
Qed.

Lemma lastRecordOf_NoDup E r :
  NoDup (rec_student_id <$> E) → r ∈ E → lastRecordOf E (rec_student_id r) = Some r.
Proof.
  induction E as [|r' E IH] using rev_ind; [by intros _ ?%elem_of_nil|].
  rewrite fmap_app, lastRecordOf_snoc. simpl.
  intros (Hnd & Hdisj & _)%NoDup_app [Hin| ->%list_elem_of_singleton]%elem_of_app.
  - case_decide as Heq; [|by apply IH].
    exfalso. apply (Hdisj (rec_student_id r)).
    + apply list_elem_of_fmap. by exists r.
    + rewrite Heq. by left.
  - by rewrite decide_True.
Qed.

(** The load stores the identifiers of the fetched records: they are truthy
    when the identifiers of the store are. *)
Lemma buildMaps_truthy E :
  Forall (λ r, truthy (rec_id r) = true) E →
  map_Forall (λ _ rid, truthy rid = true) (buildMaps E).1.
Proof.
  intros HE sid rid. destruct (buildMaps_lookup E sid) as [-> _].
  destruct (lastRecordOf E sid) as [r|] eqn:Hr; [|done].
  intros [= <-]. apply lastRecordOf_Some in Hr as [Hin _].
  by apply (proj1 (Forall_forall _ _) HE).
Qed.

Lemma buildMaps_keys E sid :
  is_Some ((buildMaps E).2 !! sid) ↔ sid ∈ rec_student_id <$> E.
Proof.
  destruct (buildMaps_lookup E sid) as [_ ->].
  rewrite lastRecordOf_is_Some. by rewrite fmap_is_Some.
Qed.

(** C2.  The load effect (loadStudentsAndAttendance), for a selected class
    and any fetched list [E] of existing records: every student appearing in
    [E] has an entry holding the status and the notes of a record of [E] for
    that student (absent notes read as the empty string, notes that are a
    string kept as they are) and is mapped to that record's identifier; when
    [E] holds one record per student, as the store guarantees, the entry of
    every record's student holds that record's values; a student with no
    record in [E] has no entry; every key of the existing-id map is a key of
    the editable map. *)
Theorem load_builds_editable_state {Store : Type} (R : Remote Store)
    (s s1 s2 : Store) (st : State) (cls : Class)
    (studentsData : option (list Student))
    (attendanceData : option (list AttendanceRecord)) :
  selectedClass st = Some cls →
  selectStudents R s (cls_id cls) = (s1, Resolved studentsData None) →
  selectAttendance R s1 (cls_id cls) (currentDate st)
    = (s2, Resolved attendanceData None) →
  let E := default [] attendanceData in
  let st' := (loadStudentsAndAttendance R s st).1.1 in
  (∀ sid, sid ∈ rec_student_id <$> E →
     ∃ r e, r ∈ E ∧ rec_student_id r = sid
          ∧ attendance st' !! sid = Some e
          ∧ status e = rec_status r
          ∧ notes e = js_or (rec_notes r) (JStr EmptyString)
          ∧ (∀ n, rec_notes r = JStr n → notes e = JStr n)
          ∧ existingRecords st' !! sid = Some (rec_id r))
  ∧ (NoDup (rec_student_id <$> E) → ∀ r, r ∈ E →
       attendance st' !! rec_student_id r
         = Some {| status := rec_status r;
                   notes := js_or (rec_notes r) (JStr EmptyString) |}
       ∧ existingRecords st' !! rec_student_id r = Some (rec_id r))
  ∧ (∀ sid, sid ∉ rec_student_id <$> E →
       attendance st' !! sid = None ∧ existingRecords st' !! sid = None)
  ∧ (∀ sid, is_Some (existingRecords st' !! sid) → is_Some (attendance st' !! sid)).
Proof.
  intros Hcls Hq1 Hq2 E st'. subst st'.
  unfold loadStudentsAndAttendance. rewrite Hcls, Hq1. cbn [setStudents currentDate].
  rewrite Hq2. cbn. fold E.
  split; [|split; [|split]].
  - intros sid [r Hr]%lastRecordOf_is_Some.
    destruct (buildMaps_lookup E sid) as [H1 H2]. rewrite Hr in H1, H2.
    destruct (lastRecordOf_Some _ _ _ Hr). exists r, (entryOf r).
    repeat split; try done. intros n Hn. cbn. rewrite Hn. apply js_or_string.
  - intros Hnd r Hr. destruct (buildMaps_lookup E (rec_student_id r)) as [H1 H2].
    by rewrite (lastRecordOf_NoDup _ _ Hnd Hr) in H1, H2.
  - intros sid Hsid. destruct (buildMaps_lookup E sid) as [H1 H2].
    destruct (lastRecordOf E sid) as [r|] eqn:Hr; [|done].
    exfalso. apply Hsid, lastRecordOf_is_Some. by eexists.
  - intros sid [x Hx]. destruct (buildMaps_lookup E sid) as [H1 H2].
    rewrite H2. rewrite Hx in H1. destruct (lastRecordOf E sid); [by eexists|done].
Qed.

Lemma load_builds_editable_state_witness :
  let E := default [] (Some (queryAttendance sampleDb "c1" "2024-03-01")) in
  let st' := (loadStudentsAndAttendance dbRemote sampleDb selectedA).1.1 in
  (∀ sid, sid ∈ rec_student_id <$> E →
     ∃ r e, r ∈ E ∧ rec_student_id r = sid
          ∧ attendance st' !! sid = Some e
          ∧ status e = rec_status r
          ∧ notes e = js_or (rec_notes r) (JStr EmptyString)
          ∧ (∀ n, rec_notes r = JStr n → notes e = JStr n)
          ∧ existingRecords st' !! sid = Some (rec_id r))
  ∧ (NoDup (rec_student_id <$> E) → ∀ r, r ∈ E →
       attendance st' !! rec_student_id r
         = Some {| status := rec_status r;
                   notes := js_or (rec_notes r) (JStr EmptyString) |}
       ∧ existingRecords st' !! rec_student_id r = Some (rec_id r))
  ∧ (∀ sid, sid ∉ rec_student_id <$> E →
       attendance st' !! sid = None ∧ existingRecords st' !! sid = None)
  ∧ (∀ sid, is_Some (existingRecords st' !! sid) → is_Some (attendance st' !! sid)).
Proof.
  apply (load_builds_editable_state dbRemote sampleDb sampleDb sampleDb selectedA
           classA (Some (queryStudents sampleDb "c1"))
           (Some (queryAttendance sampleDb "c1" "2024-03-01")));
    reflexivity.
Defined.

(** The sample records are one per student, and Bob's entry is his record. *)
Example loadedA_bob :
  NoDup (rec_student_id <$> queryAttendance sampleDb "c1" "2024-03-01")
  ∧ attendance loadedA !! "s2" = Some {| status := JStr "absent"; notes := JStr "sick" |}
  ∧ existingRecords loadedA !! "s2" = Some (JNum 99)
  ∧ attendance loadedA !! "s1" = None.
Proof.
  split; [|by vm_compute]. refine (bool_decide_unpack _ _). by vm_compute.
Qed.

(** ** The bulk mark *)

Lemma markAll_snoc st att roster student :
  markAll st att (roster ++ [student]) =
  <[stu_id student := {| status := JStr st; notes := shownNotes att (stu_id student) |}]>
    (markAll st att roster).
Proof. unfold markAll. by rewrite foldl_app. Qed.

Lemma markAll_lookup st att roster sid :
  markAll st att roster !! sid =
  if decide (sid ∈ stu_id <$> roster)
  then Some {| status := JStr st; notes := shownNotes att sid |}
  else None.
Proof.
  induction roster as [|student roster IH] using rev_ind.
  - rewrite decide_False; [done|]. apply not_elem_of_nil.
  - rewrite markAll_snoc, fmap_app, lookup_insert. simpl.
    destruct (decide (stu_id student = sid)) as [<-|Hne].
    + rewrite decide_True; [done|]. apply elem_of_app. right. by left.
    + rewrite IH. apply decide_ext. rewrite elem_of_app, list_elem_of_singleton.
      split; [by left|]. by intros [?|?].
Qed.

(** C3.  The bulk status operation (handleQuickMark) on a selected class
    with a roster that is not empty, once confirmed: every student of the
    roster has the chosen status; the notes of each are the notes held
    before, with absent notes as the empty string: notes that were a string
    are that same string, and the notes the view shows and the notes a save
    writes are those of before the operation; the state is marked dirty. *)
Theorem handleQuickMark_sets_status_keeps_notes (st0 : string) (st : State)
    (cls : Class) :
  selectedClass st = Some cls →
  students st ≠ [] →
  let after := (handleQuickMark true st0 st).1 in
  (∀ student, student ∈ students st →
     ∃ e, attendance after !! stu_id student = Some e
       ∧ status e = JStr st0
       ∧ notes e = js_or (notesOf (attendance st) (stu_id student)) (JStr EmptyString)
       ∧ (∀ n, notesOf (attendance st) (stu_id student) = JStr n → notes e = JStr n)
       ∧ shownNotes (attendance after) (stu_id student)
         = shownNotes (attendance st) (stu_id student)
       ∧ savedNotes (attendance after) (stu_id student)
         = savedNotes (attendance st) (stu_id student))
  ∧ hasChanges after = true.
Proof.
  intros Hcls Hroster after. subst after. unfold handleQuickMark.
  rewrite Hcls. destruct (students st) as [|s0 roster] eqn:Hst; [done|].
  cbn [fst setHasChanges setAttendance attendance hasChanges]. split; [|done].
  intros student Hin.
  assert (Hl : markAll st0 (attendance st) (s0 :: roster) !! stu_id student
               = Some {| status := JStr st0;
                         notes := shownNotes (attendance st) (stu_id student) |}).
  { rewrite markAll_lookup, decide_True; [done|]. apply list_elem_of_fmap. by exists student. }
  eexists. split; [exact Hl|]. cbn [status notes]. split; [done|]. split; [done|].
  split; [|split].
  - intros n Hn. unfold shownNotes. rewrite Hn. apply js_or_string.
  - unfold shownNotes at 1. unfold notesOf at 1. rewrite Hl. cbn [notes].
    unfold shownNotes. apply js_or_idem.
  - unfold savedNotes at 1. unfold notesOf at 1. rewrite Hl. cbn [notes].
    unfold shownNotes, savedNotes. apply js_or_empty_null.
Qed.

Lemma handleQuickMark_sets_status_keeps_notes_witness :
  let after := (handleQuickMark true "present" editedA).1 in
  (∀ student, student ∈ students editedA →
     ∃ e, attendance after !! stu_id student = Some e
       ∧ status e = JStr "present"
       ∧ notes e = js_or (notesOf (attendance editedA) (stu_id student)) (JStr EmptyString)
       ∧ (∀ n, notesOf (attendance editedA) (stu_id student) = JStr n → notes e = JStr n)
       ∧ shownNotes (attendance after) (stu_id student)
         = shownNotes (attendance editedA) (stu_id student)
       ∧ savedNotes (attendance after) (stu_id student)
         = savedNotes (attendance editedA) (stu_id student))
  ∧ hasChanges after = true.
Proof.
  apply (handleQuickMark_sets_status_keeps_notes "present" editedA classA).
  - reflexivity.
  - vm_compute. discriminate.
Defined.

(** The scenario of the specification: Bob had the notes "sick". *)
Example handleQuickMark_bob :
  attendance (handleQuickMark true "present" editedA).1 !! "s2"
  = Some {| status := JStr "present"; notes := JStr "sick" |}.
Proof. by vm_compute. Qed.

(** C10.  The bulk status operation (handleQuickMark), once it runs,
    replaces the whole editable map: the keys of the new map are exactly the
    identifiers of the students of the roster, and an entry that existed for
    a student who is not in the roster is gone. *)
Theorem handleQuickMark_keys_are_roster (st0 : string) (st : State) (cls : Class) :
  selectedClass st = Some cls →
  students st ≠ [] →
  let after := (handleQuickMark true st0 st).1 in
  dom (attendance after) = list_to_set (stu_id <$> students st)
  ∧ (∀ sid, is_Some (attendance after !! sid) ↔ sid ∈ stu_id <$> students st)
  ∧ (∀ sid e, attendance st !! sid = Some e → sid ∉ stu_id <$> students st →
       attendance after !! sid = None).
Proof.
  intros Hcls Hroster after. subst after. unfold handleQuickMark.
  rewrite Hcls. destruct (students st) as [|s0 roster] eqn:Hst; [done|].
  cbn [fst setHasChanges setAttendance attendance].
  assert (Hk : ∀ sid, is_Some (markAll st0 (attendance st) (s0 :: roster) !! sid)
                      ↔ sid ∈ stu_id <$> s0 :: roster).
  { intros sid. rewrite markAll_lookup.
    case_decide; split; intros Hx; try done; try (by eexists); by destruct Hx. }
  split; [|split; [exact Hk|]].
  - apply set_eq. intros sid. by rewrite elem_of_dom, Hk, elem_of_list_to_set.
  - intros sid e _ Hnot. rewrite markAll_lookup. by rewrite decide_False.
Qed.

Lemma handleQuickMark_keys_are_roster_witness :
  let after := (handleQuickMark true "present" editedA).1 in
  dom (attendance after) = list_to_set (stu_id <$> students editedA)
  ∧ (∀ sid, is_Some (attendance after !! sid) ↔ sid ∈ stu_id <$> students editedA)
  ∧ (∀ sid e, attendance editedA !! sid = Some e → sid ∉ stu_id <$> students editedA →
       attendance after !! sid = None).
Proof.
  apply (handleQuickMark_keys_are_roster "present" editedA classA).
  - reflexivity.
  - vm_compute. discriminate.
Defined.

(** Carol's entry, loaded from her record, is removed by the bulk mark. *)
Example handleQuickMark_drops_carol :
  is_Some (attendance editedA !! "s3")
  ∧ attendance (handleQuickMark true "present" editedA).1 !! "s3" = None.
Proof. split; [by eexists | by vm_compute]. Qed.

(** ** The writes of a save *)

Lemma sequentialRun_cons_ok {Store} (R : Remote Store) s s1 c plan s2 tr res :
  perform R s c = (s1, None) →
  sequentialRun R s1 plan (s2, tr, res) →
  sequentialRun R s (c :: plan) (s2, Request c :: tr, res).
Proof.
  intros Hc (n & outcomes & Hn & Hreq & Hrep & Hres). cbn [fst snd] in *.
  exists (S n), (None :: outcomes). cbn [fst snd]. split; [simpl; lia|]. split.
  { simpl. unfold requests in *. simpl. by rewrite Hreq. }
  split.
  { simpl. by rewrite Hc, Hrep. }
  destruct res as [e|].
  - destruct Hres as (pre & -> & Hpre). exists (None :: pre). split; [done|].
    by constructor.
  - destruct Hres as [-> Hall]. split; [done|]. by constructor.
Qed.

Lemma sequentialRun_cons_fail {Store} (R : Remote Store) s s1 c plan tr e :
  perform R s c = (s1, Some e) →
  requests tr = [c] →
  sequentialRun R s (c :: plan) (s1, tr, Some e).
Proof.
  intros Hc Htr. exists 1%nat, [Some e]. cbn [fst snd]. split; [simpl; lia|].
  split; [by rewrite Htr|]. split; [simpl; by rewrite Hc|].
  exists []. by split.
Qed.

Lemma updateLoop_sequential {Store} (R : Remote Store) now k s l :
  sequentialRun R s (plannedUpdates now k l) (updateLoop R now k s l).
Proof.
  revert k s. induction l as [|u l IH]; intros k s.
  - exists 0%nat, []. simpl. repeat split; auto.
  - cbn [updateLoop plannedUpdates].
    destruct (updateAttendance R s (upd_id u) (rd_status (upd_data u))
                (rd_notes (upd_data u)) (now k)) as [s1 resp] eqn:Hresp.
    destruct resp as [data [e|]|reason].
    + apply sequentialRun_cons_fail; [|done].
      unfold updateCall, perform. by rewrite Hresp.
    + specialize (IH (S k) s1).
      destruct (updateLoop R now (S k) s1 l) as [[s2 tr] res].
      apply (sequentialRun_cons_ok R s s1); [|done].
      unfold updateCall, perform. by rewrite Hresp.
    + apply sequentialRun_cons_fail; [|done].
      unfold updateCall, perform. by rewrite Hresp.
Qed.

(** C5, as amended.  The writes of a save (persistRecords): the requests
    issued are the first [n] of the plan, in its order, where the plan is a
    single insert carrying all the new records, present only when there is a
    new record, followed by one update per record to update; the store
    reached is the one these [n] requests produced one after the other;
    when no write failed the whole plan was issued and every write
    succeeded; when a write failed it is the last request issued, every
    request before it succeeded, and what they wrote stays. *)
Theorem persistRecords_sequential {Store : Type} (R : Remote Store)
    (now : nat → string) (s : Store)
    (recordsToSave : list RecordData) (recordsToUpdate : list UpdateRecord) :
  let plan := planned now recordsToSave recordsToUpdate in
  let out := persistRecords R now s recordsToSave recordsToUpdate in
  (plan = match recordsToSave with
          | [] => plannedUpdates now 0 recordsToUpdate
          | _ :: _ => InsertAttendance recordsToSave
                      :: plannedUpdates now 0 recordsToUpdate
          end)
  ∧ ∃ (n : nat) (outcomes : list (option string)),
      (n ≤ length plan)%nat
      ∧ requests out.1.2 = take n plan
      ∧ replay R s (take n plan) = (out.1.1, outcomes)
      ∧ match out.2 with
        | None => n = length plan ∧ Forall (λ o, o = None) outcomes
        | Some e => ∃ pre, outcomes = pre ++ [Some e] ∧ Forall (λ o, o = None) pre
        end.
Proof.
  intros plan out. subst plan out. split; [by destruct recordsToSave|].
  fold (sequentialRun R s (planned now recordsToSave recordsToUpdate)
          (persistRecords R now s recordsToSave recordsToUpdate)).
  unfold planned, persistRecords. destruct recordsToSave as [|rd rest].
  - apply updateLoop_sequential.
  - cbn [plannedInsert app].
    destruct (insertAttendance R s (rd :: rest)) as [s1 resp] eqn:Hresp.
    destruct resp as [data [e|]|reason].
    + apply sequentialRun_cons_fail; [|done]. unfold perform. by rewrite Hresp.
    + pose proof (updateLoop_sequential R now 0 s1 recordsToUpdate) as IH.
      destruct (updateLoop R now 0 s1 recordsToUpdate) as [[s2 tr] res].
      apply (sequentialRun_cons_ok R s s1); [|done].
      unfold perform. by rewrite Hresp.
    + apply sequentialRun_cons_fail; [|done]. unfold perform. by rewrite Hresp.
Qed.

(** A submission with no new record: Bob's record is updated and no insert
    is requested. *)
Lemma persistRecords_without_new_records_issues_no_insert :
  requests (persistRecords dbRemote clock sampleDb [] [bobLate]).1.2
  = [UpdateAttendance (JNum 99) (JStr "late") (JStr "sick") "2024-03-01T09:00:00.000Z"]
  ∧ (persistRecords dbRemote clock sampleDb [] [bobLate]).2 = None
  ∧ ¬ ∃ rows, InsertAttendance rows
              ∈ requests (persistRecords dbRemote clock sampleDb [] [bobLate]).1.2.
Proof.
  split; [by vm_compute|]. split; [by vm_compute|].
  intros [rows Hin]. vm_compute in Hin.
  apply list_elem_of_singleton in Hin. discriminate.
Qed.

(** A store out of reach: the insert fails, no update is requested. *)
Example persistRecords_stops_at_failure :
  persistRecords downRemote clock tt
    [mkRecordData "s1" "c1" "t1" "2024-03-01" (JStr "present") JNull] [bobLate]
  = (tt,
     [Request (InsertAttendance
                 [mkRecordData "s1" "c1" "t1" "2024-03-01" (JStr "present") JNull]);
      ConsoleError "Error inserting attendance:"],
     Some "Failed to fetch").
Proof. reflexivity. Qed.

Lemma updateLoop_no_saved {Store} (R : Remote Store) now k s l :
  existsb isSaved (updateLoop R now k s l).1.2 = false.
Proof.
  revert k s. induction l as [|u l IH]; intros k s; [done|]. cbn [updateLoop].
  destruct (updateAttendance _ _ _ _ _ _) as [s1 [d [e|]|r]]; try done.
  specialize (IH (S k) s1). by destruct (updateLoop R now (S k) s1 l) as [[s2 tr] res].
Qed.

Lemma persistRecords_no_saved {Store} (R : Remote Store) now s ins upd :
  existsb isSaved (persistRecords R now s ins upd).1.2 = false.
Proof.
  unfold persistRecords. destruct ins as [|rd rest]; [apply updateLoop_no_saved|].
  destruct (insertAttendance _ _ _) as [s1 [d [e|]|r]]; try done.
  pose proof (updateLoop_no_saved R now 0 s1 upd) as H.
  by destruct (updateLoop R now 0 s1 upd) as [[s2 tr] res].
Qed.

Lemma persistRecords_insert_issued {Store} (R : Remote Store) now s ins upd s1 tr :
  ins ≠ [] →
  persistRecords R now s ins upd = (s1, tr, None) →
  Request (InsertAttendance ins) ∈ tr.
Proof.
  unfold persistRecords. destruct ins as [|rd rest]; [done|]. intros _.
  destruct (insertAttendance R s (rd :: rest)) as [s2 [d [e|]|r]]; try done.
  destruct (updateLoop R now 0 s2 upd) as [[s3 tr'] res].
  intros [= <- <- ->]. by left.
Qed.

(** ** The save as a whole *)

(** The outcome of a save, read off its definition. *)
Lemma handleSaveAttendance_cases {Store} (R : Remote Store) user confirmed now s st :
  let out := handleSaveAttendance R user confirmed now s st in
  (existsb isSaved out.2 = true
   ∧ ∃ cls u s1 tr ask,
       selectedClass st = Some cls ∧ user = Some u
       ∧ persistRecords R now s
           (prepareRecords (cls_id cls) (user_id u) (currentDate st)
              (attendance st) (existingRecords st)).1
           (prepareRecords (cls_id cls) (user_id u) (currentDate st)
              (attendance st) (existingRecords st)).2 = (s1, tr, None)
       ∧ out.2 = ask ++ tr ++
           [ToastSuccess (MsgSaved
              (length (prepareRecords (cls_id cls) (user_id u) (currentDate st)
                         (attendance st) (existingRecords st)).1
               + length (prepareRecords (cls_id cls) (user_id u) (currentDate st)
                           (attendance st) (existingRecords st)).2))]
       ∧ out.1.1 = setSaving false
                     (setExistingRecords
                        (rebuildExisting (attendance st) (existingRecords st))
                        (setHasChanges false st)))
  ∨ (existsb isSaved out.2 = false
     ∧ (out.1.1 = st ∨ out.1.1 = setSaving false st)).
Proof.
  intros out. subst out. unfold handleSaveAttendance.
  destruct (selectedClass st) as [cls|]; [|right; by split; [|left]].
  destruct user as [u|]; [|right; by split; [|left]].
  set (ask := if bool_decide (0 < length (unmarkedStudents st))%nat
              then [Confirm (MsgUnmarked (length (unmarkedStudents st)))] else []).
  assert (Hask : existsb isSaved ask = false) by (subst ask; by case_bool_decide).
  destruct (bool_decide (0 < length (unmarkedStudents st))%nat && negb confirmed);
    [right; by split; [|left]|].
  pose proof (persistRecords_no_saved R now s
    (prepareRecords (cls_id cls) (user_id u) (currentDate st)
       (attendance st) (existingRecords st)).1
    (prepareRecords (cls_id cls) (user_id u) (currentDate st)
       (attendance st) (existingRecords st)).2) as Hns.
  destruct (persistRecords _ _ _ _ _) as [[s1 tr] [e|]] eqn:Hp; cbn [fst snd] in *.
  - right. split; [|by right]. by rewrite !existsb_app, Hask, Hns.
  - left. split; [by rewrite !existsb_app, Hask, Hns|].
    by exists cls, u, s1, tr, ask.
Qed.

(** C9.  After a successful save, the existing-id map is rebuilt so that
    every student whose entry has a non-empty status is a key of it; the
    students whose records were inserted by that save are mapped to the
    string 'new', and the records prepared by the next save put them among
    the updates, under the identifier 'new', and not among the new
    records. *)
Theorem save_rebuilds_existingRecords {Store : Type} (R : Remote Store)
    (user : option User) (confirmed : bool) (now : nat → string)
    (s : Store) (st : State) :
  let out := handleSaveAttendance R user confirmed now s st in
  existsb isSaved out.2 = true →
  ∃ cls u, selectedClass st = Some cls ∧ user = Some u ∧
    let st' := out.1.1 in
    let inserted :=
      (prepareRecords (cls_id cls) (user_id u) (currentDate st)
         (attendance st) (existingRecords st)).1 in
    let next :=
      prepareRecords (cls_id cls) (user_id u) (currentDate st')
        (attendance st') (existingRecords st') in
    (∀ sid data, attendance st !! sid = Some data →
       truthy (status data) = true → is_Some (existingRecords st' !! sid))
    ∧ (inserted ≠ [] → Request (InsertAttendance inserted) ∈ out.2)
    ∧ (∀ rd, rd ∈ inserted →
         existingRecords st' !! student_id rd = Some (JStr "new"))
    ∧ (∀ rd, rd ∈ inserted →
         (rd ∉ next.1) ∧ mkUpdateRecord (JStr "new") rd ∈ next.2).
Proof.
  intros out Hsaved.
  destruct (handleSaveAttendance_cases R user confirmed now s st)
    as [(_ & cls & u & s1 & tr & ask & Hcls & Hu & Hp & Htr & Hst)|(Hno & _)];
    [|subst out; congruence].
  exists cls, u. split; [done|]. split; [done|]. intros st' inserted next.
  assert (Hex : existingRecords st' = rebuildExisting (attendance st) (existingRecords st))
    by (subst st' out; by rewrite Hst).
  assert (Hatt : attendance st' = attendance st) by (subst st' out; by rewrite Hst).
  assert (Hdate : currentDate st' = currentDate st) by (subst st' out; by rewrite Hst).
  assert (Hnew : ∀ rd, rd ∈ inserted →
            ∃ data, attendance st !! student_id rd = Some data
              ∧ truthy (status data) = true
              ∧ rd = mkData (cls_id cls) (user_id u) (currentDate st) (student_id rd) data
              ∧ existingRecords st' !! student_id rd = Some (JStr "new")).
  { intros rd (sid & data & Ha & Hs & He & ->)%elem_of_prepared_inserts.
    exists data. cbn [student_id mkData]. repeat split; try done.
    rewrite Hex, rebuildExisting_lookup, Ha. unfold rebuiltId. cbn [fst snd].
    by rewrite Hs, He. }
  split; [|split; [|split]].
  - intros sid data Ha Hs. rewrite Hex, rebuildExisting_lookup, Ha.
    unfold rebuiltId. cbn [fst snd]. rewrite Hs.
    destruct (truthy (existingId (existingRecords st) sid)); by eexists.
  - intros Hne. subst out. rewrite Htr. apply elem_of_app. right.
    apply elem_of_app. left. by apply (persistRecords_insert_issued _ _ _ _ _ _ _ Hne Hp).
  - intros rd Hrd. by destruct (Hnew rd Hrd) as (data & _ & _ & _ & ?).
  - intros rd Hrd. destruct (Hnew rd Hrd) as (data & Ha & Hs & Hrdeq & Hl).
    assert (Hid : existingId (existingRecords st') (student_id rd) = JStr "new")
      by (unfold existingId; by rewrite Hl).
    subst next. rewrite Hatt, Hdate. split.
    + intros (sid & data' & Ha' & Hs' & He' & Heq)%elem_of_prepared_inserts.
      rewrite Heq in Hid. cbn [student_id mkData] in Hid. by rewrite Hid in He'.
    + apply elem_of_prepared_updates. exists (student_id rd), data.
      rewrite Hid. by rewrite <- Hrdeq.
Qed.

Lemma save_rebuilds_existingRecords_witness :
  ∃ cls u, selectedClass editedA = Some cls ∧ Some teacher = Some u ∧
    let st' := (handleSaveAttendance dbRemote (Some teacher) true clock sampleDb editedA).1.1 in
    let inserted :=
      (prepareRecords (cls_id cls) (user_id u) (currentDate editedA)
         (attendance editedA) (existingRecords editedA)).1 in
    let next :=
      prepareRecords (cls_id cls) (user_id u) (currentDate st')
        (attendance st') (existingRecords st') in
    (∀ sid data, attendance editedA !! sid = Some data →
       truthy (status data) = true → is_Some (existingRecords st' !! sid))
    ∧ (inserted ≠ [] → Request (InsertAttendance inserted)
         ∈ (handleSaveAttendance dbRemote (Some teacher) true clock sampleDb editedA).2)
    ∧ (∀ rd, rd ∈ inserted →
         existingRecords st' !! student_id rd = Some (JStr "new"))
    ∧ (∀ rd, rd ∈ inserted →
         (rd ∉ next.1) ∧ mkUpdateRecord (JStr "new") rd ∈ next.2).
Proof.
  apply (save_rebuilds_existingRecords dbRemote (Some teacher) true clock sampleDb editedA).
  vm_compute. reflexivity.
Defined.

(** Alice, inserted by the save of the sample page, is mapped to 'new'
    although the store gave her record the identifier 101. *)
Example save_maps_alice_to_new :
  let out := handleSaveAttendance dbRemote (Some teacher) true clock sampleDb editedA in
  existingRecords out.1.1 !! "s1" = Some (JStr "new")
  ∧ mkAttendanceRow (mkAttendanceRecord (JNum 101) "s1" (JStr "present") JNull)
      "c1" "t1" "2024-03-01" None ∈ attendance_table out.1.2.
Proof.
  split; [by vm_compute|]. vm_compute. do 2 right. left.
Qed.

(** ** The dirty flag *)

Lemma persistRecords_sequentialRun {Store} (R : Remote Store) now s ins upd :
  sequentialRun R s (planned now ins upd) (persistRecords R now s ins upd).
Proof.
  unfold planned, persistRecords. destruct ins as [|rd rest].
  - apply updateLoop_sequential.
  - cbn [plannedInsert app].
    destruct (insertAttendance R s (rd :: rest)) as [s1 resp] eqn:Hresp.
    destruct resp as [data [e|]|reason].
    + apply sequentialRun_cons_fail; [|done]. unfold perform. by rewrite Hresp.
    + pose proof (updateLoop_sequential R now 0 s1 upd) as IH.
      destruct (updateLoop R now 0 s1 upd) as [[s2 tr] res].
      apply (sequentialRun_cons_ok R s s1); [|done].
      unfold perform. by rewrite Hresp.
    + apply sequentialRun_cons_fail; [|done]. unfold perform. by rewrite Hresp.
Qed.

Lemma replay_app {Store} (R : Remote Store) s l1 l2 :
  replay R s (l1 ++ l2)
  = ((replay R (replay R s l1).1 l2).1,
     (replay R s l1).2 ++ (replay R (replay R s l1).1 l2).2).
Proof.
  revert s. induction l1 as [|c l1 IH]; intros s; cbn [app replay fst snd].
  - by destruct (replay R s l2).
  - destruct (perform R s c) as [s1 o]. rewrite IH.
    destruct (replay R s1 l1) as [s2 os]. cbn [fst snd].
    by destruct (replay R s2 l2).
Qed.

(** The writes of a save end without a failure exactly when the store accepts
    every request of the plan. *)
Lemma persistRecords_writesSucceed {Store} (R : Remote Store) now s ins upd :
  writesSucceed R s (planned now ins upd)
  = match (persistRecords R now s ins upd).2 with None => true | Some _ => false end.
Proof.
  destruct (persistRecords_sequentialRun R now s ins upd)
    as (n & outcomes & Hn & _ & Hrep & Hres).
  unfold writesSucceed.
  rewrite <- (take_drop n (planned now ins upd)), replay_app, Hrep. cbn [fst snd].
  rewrite forallb_app.
  destruct (persistRecords R now s ins upd).2 as [e|].
  - destruct Hres as (pre & -> & _). rewrite forallb_app. cbn.
    by rewrite andb_false_r.
  - destruct Hres as [-> Hall]. rewrite drop_all. cbn [replay snd forallb].
    rewrite andb_true_r. clear Hrep.
    induction Hall as [|o l -> _ IH]; [done|]. exact IH.
Qed.

(** The success message of a save is shown exactly when the save goes
    through. *)
Lemma handleSaveAttendance_saved {Store} (R : Remote Store) user confirmed now s st :
  existsb isSaved (handleSaveAttendance R user confirmed now s st).2
  = saveSucceeds R user confirmed now s st.
Proof.
  unfold handleSaveAttendance, saveSucceeds.
  destruct (selectedClass st) as [cls|]; [|done]. destruct user as [u|]; [|done].
  rewrite persistRecords_writesSucceed.
  pose proof (persistRecords_no_saved R now s
    (prepareRecords (cls_id cls) (user_id u) (currentDate st)
       (attendance st) (existingRecords st)).1
    (prepareRecords (cls_id cls) (user_id u) (currentDate st)
       (attendance st) (existingRecords st)).2) as Hns.
  destruct (unmarkedStudents st) as [|x l]; cbn [length];
    [rewrite (bool_decide_eq_false_2 (0 < 0)%nat) by lia
    |rewrite (bool_decide_eq_true_2 (0 < S (length l))%nat) by lia];
    destruct confirmed; cbn [andb orb negb bool_decide]; try done;
    destruct (persistRecords _ _ _ _ _) as [[s1 tr] [e|]]; cbn [fst snd] in *;
    rewrite ?existsb_app, ?Hns; try done.
Qed.

Lemma load_hasChanges {Store} (R : Remote Store) s st :
  hasChanges (loadStudentsAndAttendance R s st).1.1
  = if loadSucceeds R s st then false else hasChanges st.
Proof.
  unfold loadStudentsAndAttendance, loadSucceeds.
  destruct (selectedClass st) as [cls|]; [|done].
  destruct (selectStudents R s (cls_id cls)) as [s1 [d1 [e1|]|r1]]; cbn; try done.
  destruct (selectAttendance R s1 (cls_id cls) (currentDate st)) as [s2 [d2 [e2|]|r2]];
    cbn; done.
Qed.

(** C6, as amended.  The value of the dirty flag after each operation of the
    component: an edit of a field (handleAttendanceChange) sets it; the bulk
    mark (handleQuickMark) sets it when it is applied, that is with a class
    selected, a roster that is not empty and the confirmation given, and
    leaves it otherwise; a save clears it when it goes through, that is with
    a class selected, a user signed in, no student left without a status or
    the prompt accepted, and every write of the prepared records accepted
    by the store, and leaves it otherwise; the load of the students and the
    attendance clears it when both fetches succeed and leaves it otherwise;
    the load of the classes, a change of class and a change of date leave it
    as it is. *)
Theorem hasChanges_transitions {Store : Type} (R : Remote Store)
    (op : Op) (s : Store) (st : State) :
  let out := step R op s st in
  hasChanges out.1.1 =
  match op with
  | OpAttendanceChange _ _ _ => true
  | OpQuickMark confirmed _ => if quickMarkApplies confirmed st then true else hasChanges st
  | OpSave user confirmed now =>
      if saveSucceeds R user confirmed now s st then false else hasChanges st
  | OpLoadStudentsAndAttendance => if loadSucceeds R s st then false else hasChanges st
  | OpLoadClasses _ | OpClassChange _ _ | OpDateChange _ => hasChanges st
  end.
Proof.
  intros out. subst out. destruct op; cbn [step fst snd].
  - unfold loadClasses. destruct (selectClasses R s) as [s1 [d [e|]|r]]; try done.
    destruct classId as [[|a cid]|]; try done. destruct d as [data|]; [|done].
    by destruct (find _ data).
  - apply load_hasChanges.
  - unfold handleClassChange. destruct (hasChanges st) eqn:Hd; [|done].
    by destruct confirmed.
  - done.
  - done.
  - unfold handleQuickMark, quickMarkApplies.
    destruct (selectedClass st); [|done]. destruct (students st); [done|].
    by destruct confirmed.
  - rewrite <- handleSaveAttendance_saved.
    destruct (handleSaveAttendance_cases R user confirmed now s st)
      as [(-> & _ & _ & _ & _ & _ & _ & _ & _ & _ & ->)|(-> & [->| ->])]; done.
Qed.

(** The load of the students and the attendance is none of the three
    operations of the two-state machine, and it clears the flag of a dirty
    page. *)
Lemma load_resets_hasChanges :
  hasChanges editedA = true
  ∧ hasChanges (step dbRemote OpLoadStudentsAndAttendance sampleDb editedA).1.1 = false.
Proof. split; by vm_compute. Qed.

(** On the sample page the store accepts the two writes of the save, and the
    flag is cleared; against a store that refuses every request the same
    save fails, and the flag stays raised. *)
Example save_clears_flag_when_writes_succeed :
  hasChanges editedA = true
  ∧ saveSucceeds dbRemote (Some teacher) true clock sampleDb editedA = true
  ∧ hasChanges (handleSaveAttendance dbRemote (Some teacher) true clock sampleDb editedA).1.1
    = false
  ∧ saveSucceeds downRemote (Some teacher) true clock tt editedA = false
  ∧ hasChanges (handleSaveAttendance downRemote (Some teacher) true clock tt editedA).1.1
    = true.
Proof. repeat split; by vm_compute. Qed.

(** ** What a load installs *)

(** C7, as amended.  For every load of a class and a date from the store,
    the keys of the built editable map are exactly the students who have an
    attendance record of that class and that date, whatever their present
    class and whether or not they are active; it is the roster that holds
    exactly the active students of the class. *)
Theorem load_keys_follow_records_not_roster (db : Db) (st : State) (cls : Class) :
  selectedClass st = Some cls →
  let st' := (loadStudentsAndAttendance dbRemote db st).1.1 in
  (∀ sid, is_Some (attendance st' !! sid) ↔
     ∃ row, row ∈ attendance_table db
       ∧ rec_student_id (row_record row) = sid
       ∧ row_att_class_id row = cls_id cls
       ∧ row_attendance_date row = currentDate st)
  ∧ (∀ student, student ∈ students st' ↔
       ∃ row, row ∈ students_table db
         ∧ row_student row = student
         ∧ row_class_id row = cls_id cls
         ∧ row_is_active row = true).
Proof.
  intros Hcls st'. subst st'. unfold loadStudentsAndAttendance.
  rewrite Hcls. cbn. split.
  - intros sid. rewrite buildMaps_keys. unfold queryAttendance.
    rewrite list_elem_of_fmap. split.
    + intros (rec & -> & (row & -> & (Hf & Hin)%list_elem_of_filter)%list_elem_of_fmap).
      exists row. by destruct Hf.
    + intros (row & Hin & <- & Hc & Hd). exists (row_record row). split; [done|].
      apply list_elem_of_fmap. exists row. split; [done|].
      by apply list_elem_of_filter.
  - intros student. unfold queryStudents. rewrite merge_sort_Permutation.
    rewrite list_elem_of_fmap. split.
    + intros (row & -> & (Hf & Hin)%list_elem_of_filter). exists row. by destruct Hf.
    + intros (row & Hin & <- & Hc & Ha). exists row. split; [done|].
      by apply list_elem_of_filter.
Qed.

Lemma load_keys_follow_records_not_roster_witness :
  let st' := (loadStudentsAndAttendance dbRemote sampleDb selectedA).1.1 in
  (∀ sid, is_Some (attendance st' !! sid) ↔
     ∃ row, row ∈ attendance_table sampleDb
       ∧ rec_student_id (row_record row) = sid
       ∧ row_att_class_id row = cls_id classA
       ∧ row_attendance_date row = currentDate selectedA)
  ∧ (∀ student, student ∈ students st' ↔
       ∃ row, row ∈ students_table sampleDb
         ∧ row_student row = student
         ∧ row_class_id row = cls_id classA
         ∧ row_is_active row = true).
Proof.
  apply (load_keys_follow_records_not_roster sampleDb selectedA classA).
  reflexivity.
Defined.

(** Carol is inactive and absent from the roster, and the load installs an
    entry for her. *)
Lemma load_installs_entry_for_inactive_student :
  mkStudentRow carol "c1" false ∈ students_table sampleDb
  ∧ (carol ∉ students loadedA)
  ∧ attendance loadedA !! stu_id carol
    = Some {| status := JStr "present"; notes := JStr EmptyString |}.
Proof.
  split; [|split].
  - vm_compute. do 2 right. left.
  - vm_compute. intros H. repeat (apply elem_of_cons in H as [H|H]; [discriminate|]).
    by apply elem_of_nil in H.
  - by vm_compute.
Qed.

(** C8, as amended.  When a class is selected and the fetch of the roster
    or the fetch of the existing attendance fails (an error in the answer or
    a rejection), the failure is reported to the user by an error toast and
    the editable map, the existing-id map and the dirty flag are left as
    they were: nothing of the failed load is installed in them, and the
    editable map is empty if it was empty. *)
Theorem load_failure_leaves_editable_state {Store : Type} (R : Remote Store)
    (s : Store) (st : State) (cls : Class) :
  selectedClass st = Some cls →
  failure (selectStudents R s (cls_id cls)).2 ≠ None
  ∨ failure (selectAttendance R (selectStudents R s (cls_id cls)).1
               (cls_id cls) (currentDate st)).2 ≠ None →
  let out := loadStudentsAndAttendance R s st in
  existsb isToastError out.2 = true
  ∧ attendance out.1.1 = attendance st
  ∧ existingRecords out.1.1 = existingRecords st
  ∧ hasChanges out.1.1 = hasChanges st
  ∧ (attendance st = ∅ → attendance out.1.1 = ∅).
Proof.
  intros Hcls Hfail out. subst out. unfold loadStudentsAndAttendance.
  rewrite Hcls.
  destruct (selectStudents R s (cls_id cls)) as [s1 [d1 [e1|]|r1]]; cbn in *;
    try done.
  destruct Hfail as [?|Hfail]; [done|].
  destruct (selectAttendance R s1 (cls_id cls) (currentDate st)) as [s2 [d2 [e2|]|r2]];
    cbn in *; done.
Qed.

Lemma load_failure_leaves_editable_state_witness :
  let out := loadStudentsAndAttendance downRemote tt switchedToB in
  existsb isToastError out.2 = true
  ∧ attendance out.1.1 = attendance switchedToB
  ∧ existingRecords out.1.1 = existingRecords switchedToB
  ∧ hasChanges out.1.1 = hasChanges switchedToB
  ∧ (attendance switchedToB = ∅ → attendance out.1.1 = ∅).
Proof.
  apply (load_failure_leaves_editable_state downRemote tt switchedToB classB).
  - reflexivity.
  - left. vm_compute. discriminate.
Defined.

(** After class A was loaded, the load of class B fails: the failure is
    reported and the editable map still holds the entries of class A. *)
Lemma load_failure_keeps_previous_entries :
  let out := loadStudentsAndAttendance downRemote tt switchedToB in
  out.2 = [Request (SelectStudents "c2"); ConsoleError "Error loading students:";
           ToastError MsgFailedLoadStudents]
  ∧ attendance out.1.1 !! "s2"
    = Some {| status := JStr "absent"; notes := JStr "sick" |}
  ∧ attendance out.1.1 ≠ ∅.
Proof.
  split; [by vm_compute|]. split; [by vm_compute|].
  intros H. apply (f_equal (λ m, m !! "s2")) in H. vm_compute in H. discriminate.
Qed.

(** ** The switch guard *)

(** A change of class on a dirty page asks for a confirmation; declined, it
    changes nothing. *)
Lemma handleClassChange_declined newClassId st :
  hasChanges st = true →
  handleClassChange false newClassId st = (st, [Confirm MsgUnsavedSwitch]).
Proof. unfold handleClassChange. by intros ->. Qed.

(** Accepted, it selects the class of the given identifier. *)
Lemma handleClassChange_accepted newClassId st :
  hasChanges st = true →
  handleClassChange true newClassId st =
  (setSelectedClass (find (λ cls, bool_decide (cls_id cls = newClassId)) (classes st)) st,
   [Confirm MsgUnsavedSwitch; Navigate ("/teacher/attendance/" +:+ newClassId)]).
Proof. unfold handleClassChange. by intros ->. Qed.

(** A change of date asks for nothing, whatever the state. *)
Lemma handleDateChange_never_confirms value st :
  handleDateChange value st = (setCurrentDate value st, []).
Proof. reflexivity. Qed.

(** C4, at the failing input.  On a page with an unsaved edit (Alice marked
    present), a change of the date asks for no confirmation: the date is
    changed, the effect loads the new date, the editable map is replaced and
    the edit is lost; a change of class on the same page asks, and declined
    it changes nothing. *)
Theorem date_change_discards_edits_unconfirmed :
  let out := thenEffect dbRemote editedA sampleDb (handleDateChange "2024-03-02" editedA) in
  hasChanges editedA = true
  ∧ attendance editedA !! "s1" = Some {| status := JStr "present"; notes := JUndefined |}
  ∧ existsb isConfirm out.2 = false
  ∧ currentDate out.1.1 = "2024-03-02"
  ∧ attendance out.1.1 = ∅
  ∧ hasChanges out.1.1 = false
  ∧ handleClassChange false "c2" editedA = (editedA, [Confirm MsgUnsavedSwitch]).
Proof. repeat split; by vm_compute. Qed.

(** * Further properties of the page and of its callers *)

(** X1.  An edit of a field (handleAttendanceChange) writes the value in the
    field of the entry of that student and keeps the other field of the
    entry (absent, it stays undefined, and the entry is created when the
    student had none); the entries of the other students, the existing-id
    map, the roster, the selected class and the date are unchanged, and
    nothing is asked or requested. *)
Theorem handleAttendanceChange_edits_one_field (studentId : string) (field : Field)
    (value : JsVal) (st : State) :
  let out := handleAttendanceChange studentId field value st in
  attendance out.1 !! studentId
    = Some (match field with
            | FStatus => {| status := value; notes := notesOf (attendance st) studentId |}
            | FNotes => {| status := statusOf (attendance st) studentId; notes := value |}
            end)
  ∧ (∀ other, other ≠ studentId → attendance out.1 !! other = attendance st !! other)
  ∧ existingRecords out.1 = existingRecords st
  ∧ students out.1 = students st
  ∧ selectedClass out.1 = selectedClass st
  ∧ currentDate out.1 = currentDate st
  ∧ out.2 = [].
Proof.
  cbn. split; [|split; [|done]].
  - rewrite lookup_insert_eq. unfold notesOf, statusOf.
    by destruct field, (attendance st !! studentId).
  - intros other Hne. by rewrite lookup_insert_ne.
Qed.

Lemma setField_setField field v1 v2 e :
  setField field v2 (setField field v1 e) = setField field v2 e.
Proof. by destruct field. Qed.

Lemma setField_comm f1 f2 v1 v2 e :
  f1 ≠ f2 → setField f1 v1 (setField f2 v2 e) = setField f2 v2 (setField f1 v1 e).
Proof. by destruct f1, f2. Qed.

(** X2.  Two edits of the same field of the same student leave what the second
    alone leaves: the last value wins, and repeating an edit changes
    nothing. *)
Theorem handleAttendanceChange_last_edit_wins (studentId : string) (field : Field)
    (v1 v2 : JsVal) (st : State) :
  (handleAttendanceChange studentId field v2
     (handleAttendanceChange studentId field v1 st).1).1
  = (handleAttendanceChange studentId field v2 st).1.
Proof.
  unfold handleAttendanceChange. cbn. unfold setHasChanges, setAttendance. cbn.
  f_equal. rewrite lookup_insert_eq. cbn. rewrite insert_insert_eq.
  by rewrite setField_setField.
Qed.

(** X3.  Two edits that differ in the student or in the field can be made in
    either order: the two orders leave the same entry under every student
    identifier, a raised dirty flag, and the roster, the existing-id map,
    the selected class and the date of before.  The order in which the
    object lists its keys, which for two students without an entry follows
    the order of the edits, is not described. *)
Theorem handleAttendanceChange_edits_commute (s1 s2 : string) (f1 f2 : Field)
    (v1 v2 : JsVal) (st : State) :
  s1 ≠ s2 ∨ f1 ≠ f2 →
  let a := (handleAttendanceChange s1 f1 v1 (handleAttendanceChange s2 f2 v2 st).1).1 in
  let b := (handleAttendanceChange s2 f2 v2 (handleAttendanceChange s1 f1 v1 st).1).1 in
  (∀ sid, attendance a !! sid = attendance b !! sid)
  ∧ hasChanges a = true ∧ hasChanges b = true
  ∧ students a = students st ∧ students b = students st
  ∧ existingRecords a = existingRecords st ∧ existingRecords b = existingRecords st
  ∧ selectedClass a = selectedClass st ∧ selectedClass b = selectedClass st
  ∧ currentDate a = currentDate st ∧ currentDate b = currentDate st.
Proof.
  intros Hne a b. split; [|by repeat split].
  enough (Heq : attendance a = attendance b) by (intros sid; by rewrite Heq).
  subst a b. unfold handleAttendanceChange. cbn.
  destruct (decide (s1 = s2)) as [->|Hs].
  - destruct Hne as [?|Hf]; [done|]. rewrite !lookup_insert_eq. cbn.
    rewrite !insert_insert_eq. by rewrite setField_comm.
  - rewrite !lookup_insert_ne by done. by apply insert_insert_ne.
Qed.

Lemma handleAttendanceChange_edits_commute_witness :
  let a := (handleAttendanceChange "s1" FNotes (JStr "late bus")
              (handleAttendanceChange "s3" FStatus (JStr "late") loadedA).1).1 in
  let b := (handleAttendanceChange "s3" FStatus (JStr "late")
              (handleAttendanceChange "s1" FNotes (JStr "late bus") loadedA).1).1 in
  (∀ sid, attendance a !! sid = attendance b !! sid)
  ∧ hasChanges a = true ∧ hasChanges b = true
  ∧ students a = students loadedA ∧ students b = students loadedA
  ∧ existingRecords a = existingRecords loadedA ∧ existingRecords b = existingRecords loadedA
  ∧ selectedClass a = selectedClass loadedA ∧ selectedClass b = selectedClass loadedA
  ∧ currentDate a = currentDate loadedA ∧ currentDate b = currentDate loadedA.
Proof.
  apply (handleAttendanceChange_edits_commute "s1" "s3" FNotes FStatus).
  left. discriminate.
Defined.

Lemma increment_present p a l u :
  increment "present" (mkStats (Count p) a l u) = mkStats (Count (S p)) a l u.
Proof. reflexivity. Qed.

Lemma increment_absent p a l u :
  increment "absent" (mkStats p (Count a) l u) = mkStats p (Count (S a)) l u.
Proof. reflexivity. Qed.

Lemma increment_late p a l u :
  increment "late" (mkStats p a (Count l) u) = mkStats p a (Count (S l)) u.
Proof. reflexivity. Qed.

Lemma increment_unmarked p a l u :
  increment "unmarked" (mkStats p a l (Count u)) = mkStats p a l (Count (S u)).
Proof. reflexivity. Qed.

Lemma stats_foldl att roster p a l u :
  Forall (λ student, knownStatus (statusOf att (stu_id student))) roster →
  foldl (λ stats student,
           let status := statusOf att (stu_id student) in
           if truthy status then increment (toString status) stats
           else increment "unmarked" stats)
        (mkStats (Count p) (Count a) (Count l) (Count u)) roster
  = mkStats (Count (p + countStatus att roster "present"))
            (Count (a + countStatus att roster "absent"))
            (Count (l + countStatus att roster "late"))
            (Count (u + countUnmarked att roster)).
Proof.
  unfold countStatus, countUnmarked.
  revert p a l u. induction roster as [|student roster IH]; intros p a l u HF.
  - rewrite !filter_nil. cbn [foldl length]. by rewrite !Nat.add_0_r.
  - apply Forall_cons in HF as [Hk HF]. cbn [foldl]. rewrite !filter_cons.
    destruct Hk as [Hk|[Hk|[Hk|Hk]]]; rewrite Hk; cbn [truthy toString].
    + rewrite increment_unmarked, IH by done.
      rewrite (decide_True (P := false = false)) by done.
      rewrite !decide_False by (intros Heq; rewrite Heq in Hk; done).
      cbn [length]. by rewrite Nat.add_succ_r.
    + rewrite increment_present, IH by done.
      rewrite (decide_True (P := JStr "present" = JStr "present")) by done.
      rewrite !decide_False by done. cbn [length]. by rewrite Nat.add_succ_r.
    + rewrite increment_late, IH by done.
      rewrite (decide_True (P := JStr "late" = JStr "late")) by done.
      rewrite !decide_False by done. cbn [length]. by rewrite Nat.add_succ_r.
    + rewrite increment_absent, IH by done.
      rewrite (decide_True (P := JStr "absent" = JStr "absent")) by done.
      rewrite !decide_False by done. cbn [length]. by rewrite Nat.add_succ_r.
Qed.

Lemma counts_sum att roster :
  Forall (λ student, knownStatus (statusOf att (stu_id student))) roster →
  (countStatus att roster "present" + countStatus att roster "absent"
   + countStatus att roster "late" + countUnmarked att roster = length roster)%nat.
Proof.
  unfold countStatus, countUnmarked.
  induction roster as [|student roster IH]; intros HF; [done|].
  apply Forall_cons in HF as [Hk HF]. specialize (IH HF). rewrite !filter_cons.
  destruct Hk as [Hk|[Hk|[Hk|Hk]]]; rewrite Hk.
  - rewrite (decide_True (P := false = false)) by done.
    rewrite !decide_False by (intros Heq; rewrite Heq in Hk; done).
    cbn [length]. lia.
  - rewrite (decide_True (P := JStr "present" = JStr "present")) by done.
    rewrite !decide_False by done. cbn [length]. lia.
  - rewrite (decide_True (P := JStr "late" = JStr "late")) by done.
    rewrite !decide_False by done. cbn [length]. lia.
  - rewrite (decide_True (P := JStr "absent" = JStr "absent")) by done.
    rewrite !decide_False by done. cbn [length]. lia.
Qed.

Lemma getAttendanceStats_eq st :
  Forall (λ student, knownStatus (statusOf (attendance st) (stu_id student)))
         (students st) →
  getAttendanceStats st
  = mkStats (Count (countStatus (attendance st) (students st) "present"))
            (Count (countStatus (attendance st) (students st) "absent"))
            (Count (countStatus (attendance st) (students st) "late"))
            (Count (countUnmarked (attendance st) (students st))).
Proof. intros HF. exact (stats_foldl _ _ 0 0 0 0 HF). Qed.

(** X4.  When the status of every roster student is unset or one of present,
    late and absent, the statistics (getAttendanceStats) count the roster
    students of each status, the unmarked counter is the number of students
    the save reports as unmarked, the count of marked students shown is the
    roster size less the unmarked ones, and no other counter exists. *)
Theorem getAttendanceStats_counts (st : State) :
  Forall (λ student, knownStatus (statusOf (attendance st) (stu_id student)))
         (students st) →
  let stats := getAttendanceStats st in
  counter stats "present" = Count (countStatus (attendance st) (students st) "present")
  ∧ counter stats "absent" = Count (countStatus (attendance st) (students st) "absent")
  ∧ counter stats "late" = Count (countStatus (attendance st) (students st) "late")
  ∧ counter stats "unmarked" = Count (length (unmarkedStudents st))
  ∧ markedCount stats = Count (length (students st) - length (unmarkedStudents st))
  ∧ (∀ key, key ∉ ["present"; "absent"; "late"; "unmarked"] → stats !! key = None).
Proof.
  intros HF stats. subst stats. rewrite (getAttendanceStats_eq _ HF).
  pose proof (counts_sum _ _ HF) as Hsum.
  change (countUnmarked (attendance st) (students st)) with (length (unmarkedStudents st)) in *.
  split; [reflexivity|]. split; [reflexivity|]. split; [reflexivity|].
  split; [reflexivity|]. split.
  - change (markedCount _) with
      (Count (countStatus (attendance st) (students st) "present"
              + countStatus (attendance st) (students st) "late"
              + countStatus (attendance st) (students st) "absent")).
    f_equal. lia.
  - intros key Hkey. unfold mkStats.
    rewrite !lookup_insert_ne, lookup_singleton_ne; [done|..];
      intros <-; apply Hkey; set_solver.
Qed.

Lemma getAttendanceStats_counts_witness :
  let stats := getAttendanceStats editedA in
  counter stats "present" = Count (countStatus (attendance editedA) (students editedA) "present")
  ∧ counter stats "absent" = Count (countStatus (attendance editedA) (students editedA) "absent")
  ∧ counter stats "late" = Count (countStatus (attendance editedA) (students editedA) "late")
  ∧ counter stats "unmarked" = Count (length (unmarkedStudents editedA))
  ∧ markedCount stats = Count (length (students editedA) - length (unmarkedStudents editedA))
  ∧ (∀ key, key ∉ ["present"; "absent"; "late"; "unmarked"] → stats !! key = None).
Proof.
  apply (getAttendanceStats_counts editedA).
  refine (bool_decide_unpack _ _). vm_compute. exact I.
Defined.

(** A status the page does not know makes a counter of its own, which is
    not a number, and leaves the four counters short of the roster. *)
Example getAttendanceStats_unknown_status :
  getAttendanceStats
    (setStudents [alice]
       (setAttendance {[ "s1" := {| status := JStr "excused"; notes := JUndefined |} ]}
          selectedA))
  = <["excused" := NaN]> (mkStats (Count 0) (Count 0) (Count 0) (Count 0)).
Proof. by vm_compute. Qed.

(** X5.  The bulk mark (handleQuickMark) changes the state only when a class is
    selected, the roster is not empty and the user confirms; it asks for the
    confirmation exactly when a class is selected and the roster is not
    empty, and it never changes the existing-id map, the roster, the
    selected class or the date. *)
Theorem handleQuickMark_guarded (confirmed : bool) (st0 : string) (st : State) :
  let out := handleQuickMark confirmed st0 st in
  out.1 = (if quickMarkApplies confirmed st
           then setHasChanges true
                  (setAttendance (markAll st0 (attendance st) (students st)) st)
           else st)
  ∧ existsb isConfirm out.2 = quickMarkApplies true st
  ∧ existingRecords out.1 = existingRecords st
  ∧ students out.1 = students st
  ∧ selectedClass out.1 = selectedClass st
  ∧ currentDate out.1 = currentDate st.
Proof.
  unfold handleQuickMark, quickMarkApplies.
  destruct (selectedClass st) eqn:Hc; [|done].
  destruct (students st) eqn:Hs; [done|].
  destruct confirmed; cbn; by rewrite ?Hc, ?Hs.
Qed.

Lemma markAll_status st0 att roster student :
  student ∈ roster → statusOf (markAll st0 att roster) (stu_id student) = JStr st0.
Proof.
  intros Hin. unfold statusOf. rewrite markAll_lookup, decide_True; [done|].
  apply list_elem_of_fmap. by exists student.
Qed.

Lemma filter_all {A} (P : A → Prop) `{∀ x, Decision (P x)} (l : list A) :
  Forall P l → filter P l = l.
Proof.
  induction 1 as [|x l Hx _ IH]; [done|]. rewrite filter_cons, decide_True by done.
  by rewrite IH.
Qed.

Lemma filter_none {A} (P : A → Prop) `{∀ x, Decision (P x)} (l : list A) :
  Forall (λ x, ¬ P x) l → filter P l = [].
Proof.
  induction 1 as [|x l Hx _ IH]; [done|]. by rewrite filter_cons, decide_False.
Qed.

Lemma countStatus_all att roster s :
  Forall (λ student, statusOf att (stu_id student) = JStr s) roster →
  countStatus att roster s = length roster
  ∧ (∀ s', s' ≠ s → countStatus att roster s' = 0%nat)
  ∧ (s ≠ EmptyString → countUnmarked att roster = 0%nat).
Proof.
  intros HF. unfold countStatus, countUnmarked. split; [|split].
  - by rewrite filter_all.
  - intros s' Hs'. rewrite filter_none; [done|].
    eapply Forall_impl; [exact HF|]. intros x -> [= ?]. done.
  - intros Hs. rewrite filter_none; [done|].
    eapply Forall_impl; [exact HF|]. intros x ->. by destruct s.
Qed.

Lemma counter_mkStats p a l u :
  counter (mkStats p a l u) "present" = p
  ∧ counter (mkStats p a l u) "absent" = a
  ∧ counter (mkStats p a l u) "late" = l
  ∧ counter (mkStats p a l u) "unmarked" = u.
Proof. by repeat split. Qed.

Lemma markedCount_mkStats p a l u :
  markedCount (mkStats (Count p) (Count a) (Count l) u) = Count (p + l + a).
Proof. reflexivity. Qed.

(** X6.  After a bulk mark with present, late or absent, the statistics show the
    whole roster under that status, zero under the three other counters and
    no unmarked student. *)
Theorem handleQuickMark_then_stats (st0 : string) (st : State) (cls : Class) :
  selectedClass st = Some cls →
  students st ≠ [] →
  st0 ∈ ["present"; "late"; "absent"] →
  let after := (handleQuickMark true st0 st).1 in
  let stats := getAttendanceStats after in
  counter stats st0 = Count (length (students st))
  ∧ (∀ key, key ∈ ["present"; "late"; "absent"; "unmarked"] → key ≠ st0 →
       counter stats key = Count 0)
  ∧ markedCount stats = Count (length (students st))
  ∧ unmarkedStudents after = [].
Proof.
  intros Hcls Hroster Hst0 after stats.
  assert (Hafter : after = setHasChanges true
                     (setAttendance (markAll st0 (attendance st) (students st)) st)).
  { subst after. unfold handleQuickMark. rewrite Hcls. by destruct (students st). }
  assert (HF : Forall (λ student, statusOf (attendance after) (stu_id student) = JStr st0)
                 (students after)).
  { rewrite Hafter. cbn. apply Forall_forall. intros student Hin.
    by apply markAll_status. }
  assert (Hne : st0 ≠ EmptyString).
  { intros ->. repeat (apply elem_of_cons in Hst0 as [Hst0|Hst0]; [done|]).
    by apply elem_of_nil in Hst0. }
  destruct (countStatus_all _ _ _ HF) as (Hall & Hother & Hun).
  specialize (Hun Hne).
  assert (Hknown : Forall (λ student, knownStatus (statusOf (attendance after) (stu_id student)))
                     (students after)).
  { eapply Forall_impl; [exact HF|]. intros x ->. unfold knownStatus.
    repeat (apply elem_of_cons in Hst0 as [Hst0|Hst0]; [subst st0; by auto|]).
    by apply elem_of_nil in Hst0. }
  assert (Hlen : length (students after) = length (students st)) by by rewrite Hafter.
  subst stats. rewrite (getAttendanceStats_eq _ Hknown). rewrite Hun.
  assert (Hum : unmarkedStudents after = []).
  { apply length_zero_iff_nil. exact Hun. }
  rewrite markedCount_mkStats.
  destruct (counter_mkStats
              (Count (countStatus (attendance after) (students after) "present"))
              (Count (countStatus (attendance after) (students after) "absent"))
              (Count (countStatus (attendance after) (students after) "late"))
              (Count 0)) as (Hp & Ha & Hl & Hu).
  assert (Hcases : st0 = "present" ∨ st0 = "late" ∨ st0 = "absent").
  { repeat (apply elem_of_cons in Hst0 as [Hst0|Hst0]; [by auto|]).
    by apply elem_of_nil in Hst0. }
  assert (Hkeys : ∀ key, key ∈ ["present"; "late"; "absent"; "unmarked"] →
            key = "present" ∨ key = "late" ∨ key = "absent" ∨ key = "unmarked").
  { intros key Hkey.
    repeat (apply elem_of_cons in Hkey as [Hkey|Hkey]; [by auto|]).
    by apply elem_of_nil in Hkey. }
  destruct Hcases as [->|[->| ->]]; rewrite Hall in *;
    rewrite !Hother in * by done; rewrite Hlen in *.
  - split; [exact Hp|]. split; [|split; [f_equal; lia|done]].
    intros key Hkey Hk. destruct (Hkeys key Hkey) as [->|[->|[->| ->]]]; done.
  - split; [exact Hl|]. split; [|split; [f_equal; lia|done]].
    intros key Hkey Hk. destruct (Hkeys key Hkey) as [->|[->|[->| ->]]]; done.
  - split; [exact Ha|]. split; [|split; [f_equal; lia|done]].
    intros key Hkey Hk. destruct (Hkeys key Hkey) as [->|[->|[->| ->]]]; done.
Qed.

Lemma handleQuickMark_then_stats_witness :
  let after := (handleQuickMark true "late" editedA).1 in
  let stats := getAttendanceStats after in
  counter stats "late" = Count (length (students editedA))
  ∧ (∀ key, key ∈ ["present"; "late"; "absent"; "unmarked"] → key ≠ "late" →
       counter stats key = Count 0)
  ∧ markedCount stats = Count (length (students editedA))
  ∧ unmarkedStudents after = [].
Proof.
  apply (handleQuickMark_then_stats "late" editedA classA).
  - reflexivity.
  - vm_compute. discriminate.
  - right. left.
Defined.

Lemma updateLoop_writes {Store} (R : Remote Store) now k s l :
  forallb isWrite (updateLoop R now k s l).1.2 = true.
Proof.
  revert k s. induction l as [|u l IH]; intros k s; [done|]. cbn [updateLoop].
  destruct (updateAttendance _ _ _ _ _ _) as [s1 [d [e|]|r]]; try done.
  specialize (IH (S k) s1). by destruct (updateLoop R now (S k) s1 l) as [[s2 tr] res].
Qed.

Lemma persistRecords_writes {Store} (R : Remote Store) now s ins upd :
  forallb isWrite (persistRecords R now s ins upd).1.2 = true.
Proof.
  unfold persistRecords. destruct ins as [|rd rest]; [apply updateLoop_writes|].
  destruct (insertAttendance _ _ _) as [s1 [d [e|]|r]]; try done.
  pose proof (updateLoop_writes R now 0 s1 upd) as H.
  by destruct (updateLoop R now 0 s1 upd) as [[s2 tr] res].
Qed.

Lemma writes_no_confirm tr : forallb isWrite tr = true → existsb isConfirm tr = false.
Proof.
  induction tr as [|e tr IH]; [done|]. cbn. intros [He Htr]%andb_true_iff.
  rewrite (IH Htr). by destruct e.
Qed.

Lemma prepared_lengths classId teacherId date existing (l : list (string * Entry)) :
  (length (omap (insertOf classId teacherId date existing) l)
   + length (omap (updateOf classId teacherId date existing) l)
   = length (filter (λ kv, truthy (status kv.2) = true) l))%nat.
Proof.
  induction l as [|[sid data] l IH]; [done|]. rewrite filter_cons. cbn [omap list_omap fst snd].
  unfold insertOf at 1, updateOf at 1. cbn [fst snd].
  destruct (truthy (status data)); cbn [andb].
  - rewrite decide_True by done.
    destruct (truthy (existingId existing sid)); cbn [negb length]; lia.
  - rewrite decide_False by done. exact IH.
Qed.

(** X7.  The records of a save are as many as the entries with a non-empty
    status: the number the save button shows. *)
Theorem prepareRecords_count (classId teacherId date : string)
    (att : gmap string Entry) (existing : gmap string JsVal) :
  let records := prepareRecords classId teacherId date att existing in
  (length records.1 + length records.2 = recordsCount att)%nat.
Proof.
  cbn. rewrite prepareRecords_eq. apply prepared_lengths.
Qed.

Lemma askUnmarked_nil st : unmarkedStudents st = [] → askUnmarked st = [].
Proof. unfold askUnmarked. by intros ->. Qed.

Lemma askUnmarked_cons st :
  unmarkedStudents st ≠ [] →
  askUnmarked st = [Confirm (MsgUnmarked (length (unmarkedStudents st)))].
Proof.
  unfold askUnmarked. intros Hne. rewrite bool_decide_eq_true_2; [done|].
  destruct (unmarkedStudents st); [done|]. cbn. lia.
Qed.

Lemma requests_app tr1 tr2 : requests (tr1 ++ tr2) = requests tr1 ++ requests tr2.
Proof. unfold requests. apply omap_app. Qed.

Lemma requests_askUnmarked st : requests (askUnmarked st) = [].
Proof. unfold askUnmarked. by case_bool_decide. Qed.

(** A save that goes past its checks: its outcome follows the writes. *)
Lemma handleSaveAttendance_run {Store} (R : Remote Store) u confirmed now s st cls :
  selectedClass st = Some cls →
  unmarkedStudents st = [] ∨ confirmed = true →
  handleSaveAttendance R (Some u) confirmed now s st =
  let records := prepareRecords (cls_id cls) (user_id u) (currentDate st)
                   (attendance st) (existingRecords st) in
  let p := persistRecords R now s records.1 records.2 in
  match p.2 with
  | None =>
      (setSaving false
         (setExistingRecords (rebuildExisting (attendance st) (existingRecords st))
            (setHasChanges false st)),
       p.1.1,
       askUnmarked st ++ p.1.2 ++
         [ToastSuccess (MsgSaved (length records.1 + length records.2))])
  | Some _ =>
      (setSaving false st, p.1.1,
       askUnmarked st ++ p.1.2 ++
         [ConsoleError "Error saving attendance:"; ToastError MsgFailedSave])
  end.
Proof.
  intros Hcls Hgo. unfold handleSaveAttendance, askUnmarked. rewrite Hcls. cbn zeta.
  assert (Hb : bool_decide (0 < length (unmarkedStudents st))%nat && negb confirmed = false).
  { destruct Hgo as [->| ->]; [done|]. by rewrite andb_false_r. }
  rewrite Hb.
  by destruct (persistRecords _ _ _ _ _) as [[s1 tr] [e|]].
Qed.

(** X8.  A save with no class selected, with no signed-in user, or whose
    validation prompt is declined requests nothing and leaves the state and
    the store as they are; its only effect is the error toast, or the
    prompt. *)
Theorem handleSaveAttendance_not_started {Store : Type} (R : Remote Store)
    (user : option User) (confirmed : bool) (now : nat → string)
    (s : Store) (st : State) :
  selectedClass st = None ∨ user = None
  ∨ (unmarkedStudents st ≠ [] ∧ confirmed = false) →
  let out := handleSaveAttendance R user confirmed now s st in
  out.1.1 = st
  ∧ out.1.2 = s
  ∧ requests out.2 = []
  ∧ out.2 = match selectedClass st, user with
            | Some _, Some _ => [Confirm (MsgUnmarked (length (unmarkedStudents st)))]
            | _, _ => [ToastError MsgMissingData]
            end.
Proof.
  intros Hcase. unfold handleSaveAttendance.
  destruct (selectedClass st) as [cls|]; [|done].
  destruct user as [u|]; [|done].
  destruct Hcase as [?|[?|[Hne ->]]]; [done|done|].
  rewrite bool_decide_eq_true_2; [done|].
  destruct (unmarkedStudents st); [done|]. cbn. lia.
Qed.

Lemma handleSaveAttendance_not_started_witness :
  let out := handleSaveAttendance dbRemote (Some teacher) false clock sampleDb bobEditedA in
  out.1.1 = bobEditedA
  ∧ out.1.2 = sampleDb
  ∧ requests out.2 = []
  ∧ out.2 = match selectedClass bobEditedA, Some teacher with
            | Some _, Some _ => [Confirm (MsgUnmarked (length (unmarkedStudents bobEditedA)))]
            | _, _ => [ToastError MsgMissingData]
            end.
Proof.
  apply (handleSaveAttendance_not_started dbRemote (Some teacher) false clock sampleDb bobEditedA).
  right. right. split; [|reflexivity]. vm_compute. discriminate.
Defined.

(** X9.  With a class selected and a user signed in, a save asks for a
    confirmation exactly when a roster student has no status, once, before
    anything else, naming the number of such students; declined, nothing
    follows. *)
Theorem handleSaveAttendance_asks_iff_unmarked {Store : Type} (R : Remote Store)
    (u : User) (confirmed : bool) (now : nat → string)
    (s : Store) (st : State) (cls : Class) :
  selectedClass st = Some cls →
  let out := handleSaveAttendance R (Some u) confirmed now s st in
  (unmarkedStudents st = [] → existsb isConfirm out.2 = false)
  ∧ (unmarkedStudents st ≠ [] →
       ∃ rest, out.2 = Confirm (MsgUnmarked (length (unmarkedStudents st))) :: rest
               ∧ existsb isConfirm rest = false
               ∧ (confirmed = false → rest = [])).
Proof.
  intros Hcls out. subst out. split.
  - intros Hnil. rewrite (handleSaveAttendance_run R u confirmed now s st cls Hcls)
      by by left.
    cbn zeta. rewrite (askUnmarked_nil _ Hnil).
    pose proof (persistRecords_writes R now s
      (prepareRecords (cls_id cls) (user_id u) (currentDate st)
         (attendance st) (existingRecords st)).1
      (prepareRecords (cls_id cls) (user_id u) (currentDate st)
         (attendance st) (existingRecords st)).2) as Hw.
    apply writes_no_confirm in Hw.
    destruct (persistRecords _ _ _ _ _) as [[s1 tr] [e|]]; cbn in *;
      by rewrite existsb_app, Hw.
  - intros Hne. destruct confirmed.
    + rewrite (handleSaveAttendance_run R u true now s st cls Hcls) by by right.
      cbn zeta. rewrite (askUnmarked_cons _ Hne).
      pose proof (persistRecords_writes R now s
        (prepareRecords (cls_id cls) (user_id u) (currentDate st)
           (attendance st) (existingRecords st)).1
        (prepareRecords (cls_id cls) (user_id u) (currentDate st)
           (attendance st) (existingRecords st)).2) as Hw.
      apply writes_no_confirm in Hw.
      destruct (persistRecords _ _ _ _ _) as [[s1 tr] [e|]]; cbn in *;
        eexists; (split; [reflexivity|]); (split; [|done]);
        by rewrite existsb_app, Hw.
    + unfold handleSaveAttendance. rewrite Hcls.
      rewrite bool_decide_eq_true_2; [by exists []|].
      destruct (unmarkedStudents st); [done|]. cbn. lia.
Qed.

Lemma last_app_two {A} (l : list A) a b : last (l ++ [a; b]) = Some b.
Proof. by rewrite (cons_middle a l [b]), app_assoc, last_snoc. Qed.

(** X10.  A save that does not reach its success toast leaves the editable map,
    the existing-id map, the dirty flag, the roster, the selected class and
    the date as they were, so that the save can be tried again; when it had
    issued a request the last effect is the error toast of the save. *)
Theorem handleSaveAttendance_failure_keeps_state {Store : Type} (R : Remote Store)
    (user : option User) (confirmed : bool) (now : nat → string)
    (s : Store) (st : State) :
  let out := handleSaveAttendance R user confirmed now s st in
  existsb isSaved out.2 = false →
  attendance out.1.1 = attendance st
  ∧ existingRecords out.1.1 = existingRecords st
  ∧ hasChanges out.1.1 = hasChanges st
  ∧ students out.1.1 = students st
  ∧ selectedClass out.1.1 = selectedClass st
  ∧ currentDate out.1.1 = currentDate st
  ∧ (requests out.2 ≠ [] → last out.2 = Some (ToastError MsgFailedSave)).
Proof.
  intros out Hns. subst out. unfold handleSaveAttendance in *.
  destruct (selectedClass st) as [cls|] eqn:Hcls; [|by rewrite ?Hcls].
  destruct user as [u|]; [|by rewrite ?Hcls].
  cbn zeta in *.
  destruct (bool_decide (0 < length (unmarkedStudents st))%nat && negb confirmed);
    [cbn; rewrite ?Hcls; repeat split; try done; by case_bool_decide|].
  destruct (persistRecords _ _ _ _ _) as [[s1 tr] [e|]]; cbn [fst snd] in *.
  - rewrite ?Hcls. repeat split; try done. intros _.
    by rewrite app_assoc, last_app_two.
  - rewrite !existsb_app in Hns. cbn in Hns. by rewrite !orb_true_r in Hns.
Qed.

Lemma handleSaveAttendance_failure_keeps_state_witness :
  let out := handleSaveAttendance downRemote (Some teacher) true clock tt editedA in
  attendance out.1.1 = attendance editedA
  ∧ existingRecords out.1.1 = existingRecords editedA
  ∧ hasChanges out.1.1 = hasChanges editedA
  ∧ students out.1.1 = students editedA
  ∧ selectedClass out.1.1 = selectedClass editedA
  ∧ currentDate out.1.1 = currentDate editedA
  ∧ (requests out.2 ≠ [] → last out.2 = Some (ToastError MsgFailedSave)).
Proof.
  apply (handleSaveAttendance_failure_keeps_state downRemote (Some teacher) true clock tt editedA).
  vm_compute. reflexivity.
Defined.

(** X11.  A save that reaches its success toast has issued the whole plan of
    writes, in order, each of them succeeding, and the store is the one the
    plan produced; the toast is the last effect and names the number of
    entries with a non-empty status; the editable map is unchanged, the
    dirty flag and the saving flag are down. *)
Theorem handleSaveAttendance_success_runs_plan {Store : Type} (R : Remote Store)
    (user : option User) (confirmed : bool) (now : nat → string)
    (s : Store) (st : State) :
  let out := handleSaveAttendance R user confirmed now s st in
  existsb isSaved out.2 = true →
  ∃ cls u, selectedClass st = Some cls ∧ user = Some u ∧
    let records := prepareRecords (cls_id cls) (user_id u) (currentDate st)
                     (attendance st) (existingRecords st) in
    let plan := planned now records.1 records.2 in
    requests out.2 = plan
    ∧ (replay R s plan).1 = out.1.2
    ∧ Forall (λ o, o = None) (replay R s plan).2
    ∧ last out.2 = Some (ToastSuccess (MsgSaved (recordsCount (attendance st))))
    ∧ attendance out.1.1 = attendance st
    ∧ hasChanges out.1.1 = false
    ∧ saving out.1.1 = false.
Proof.
  intros out Hs. subst out. unfold handleSaveAttendance in *.
  destruct (selectedClass st) as [cls|] eqn:Hcls; [|done].
  destruct user as [u|]; [|done]. exists cls, u. split; [done|]. split; [done|].
  cbn zeta in *.
  fold (askUnmarked st) in *.
  destruct (bool_decide (0 < length (unmarkedStudents st))%nat && negb confirmed).
  { exfalso. cbn in Hs. unfold askUnmarked in Hs. by case_bool_decide. }
  pose proof (persistRecords_sequentialRun R now s
    (prepareRecords (cls_id cls) (user_id u) (currentDate st)
       (attendance st) (existingRecords st)).1
    (prepareRecords (cls_id cls) (user_id u) (currentDate st)
       (attendance st) (existingRecords st)).2) as Hrun.
  pose proof (persistRecords_no_saved R now s
    (prepareRecords (cls_id cls) (user_id u) (currentDate st)
       (attendance st) (existingRecords st)).1
    (prepareRecords (cls_id cls) (user_id u) (currentDate st)
       (attendance st) (existingRecords st)).2) as Hns.
  destruct (persistRecords _ _ _ _ _) as [[s1 tr] [e|]]; cbn [fst snd] in *.
  { exfalso. rewrite !existsb_app, Hns in Hs. cbn in Hs.
    unfold askUnmarked in Hs. by case_bool_decide. }
  destruct Hrun as (n & outcomes & Hn & Hreq & Hrep & -> & Hall). cbn [fst snd] in *.
  rewrite firstn_all in Hreq, Hrep.
  rewrite !requests_app, requests_askUnmarked, Hreq. cbn [app]. rewrite Hrep. cbn [fst snd].
  repeat split; try done.
  - unfold requests. cbn. by rewrite app_nil_r.
  - rewrite app_assoc, last_snoc. do 3 f_equal. unfold recordsCount.
    rewrite prepareRecords_eq. apply prepared_lengths.
Qed.

Lemma handleSaveAttendance_success_runs_plan_witness :
  ∃ cls u, selectedClass editedA = Some cls ∧ Some teacher = Some u ∧
    let out := handleSaveAttendance dbRemote (Some teacher) true clock sampleDb editedA in
    let records := prepareRecords (cls_id cls) (user_id u) (currentDate editedA)
                     (attendance editedA) (existingRecords editedA) in
    let plan := planned clock records.1 records.2 in
    requests out.2 = plan
    ∧ (replay dbRemote sampleDb plan).1 = out.1.2
    ∧ Forall (λ o, o = None) (replay dbRemote sampleDb plan).2
    ∧ last out.2 = Some (ToastSuccess (MsgSaved (recordsCount (attendance editedA))))
    ∧ attendance out.1.1 = attendance editedA
    ∧ hasChanges out.1.1 = false
    ∧ saving out.1.1 = false.
Proof.
  apply (handleSaveAttendance_success_runs_plan dbRemote (Some teacher) true clock
           sampleDb editedA).
  vm_compute. reflexivity.
Defined.

(** X12.  After a bulk mark with a status that is not empty, a save asks for no
    confirmation and prepares, for every student of the roster, a record of
    that student with that status, among the new records or among the
    updates. *)
Theorem handleQuickMark_then_save_writes_roster {Store : Type} (R : Remote Store)
    (st0 : string) (u : User) (confirmed : bool) (now : nat → string)
    (s : Store) (st : State) (cls : Class) :
  selectedClass st = Some cls →
  students st ≠ [] →
  st0 ≠ EmptyString →
  let after := (handleQuickMark true st0 st).1 in
  let out := handleSaveAttendance R (Some u) confirmed now s after in
  let records := prepareRecords (cls_id cls) (user_id u) (currentDate st)
                   (attendance after) (existingRecords st) in
  existsb isConfirm out.2 = false
  ∧ (∀ student, student ∈ students st →
       ∃ rd, student_id rd = stu_id student ∧ rd_status rd = JStr st0
         ∧ (rd ∈ records.1 ∨ ∃ rid, mkUpdateRecord rid rd ∈ records.2)).
Proof.
  intros Hcls Hroster Hst0 after out records.
  assert (Hafter : after = setHasChanges true
                     (setAttendance (markAll st0 (attendance st) (students st)) st)).
  { subst after. unfold handleQuickMark. rewrite Hcls. by destruct (students st). }
  assert (Hun : unmarkedStudents after = []).
  { unfold unmarkedStudents. apply filter_none, Forall_forall. intros student Hin.
    rewrite Hafter in Hin |- *. cbn in Hin |- *.
    rewrite (markAll_status _ _ _ _ Hin). by destruct st0. }
  split.
  - subst out.
    assert (Hc : selectedClass after = Some cls) by (rewrite Hafter; exact Hcls).
    rewrite (handleSaveAttendance_run R u confirmed now s after cls Hc (or_introl Hun)).
    cbn zeta. rewrite (askUnmarked_nil _ Hun).
    pose proof (persistRecords_writes R now s
      (prepareRecords (cls_id cls) (user_id u) (currentDate after)
         (attendance after) (existingRecords after)).1
      (prepareRecords (cls_id cls) (user_id u) (currentDate after)
         (attendance after) (existingRecords after)).2) as Hw.
    apply writes_no_confirm in Hw.
    destruct (persistRecords _ _ _ _ _) as [[s1 tr] [e|]]; cbn in *;
      by rewrite existsb_app, Hw.
  - intros student Hin.
    assert (Hl : attendance after !! stu_id student
                 = Some {| status := JStr st0;
                           notes := shownNotes (attendance st) (stu_id student) |}).
    { rewrite Hafter. cbn. rewrite markAll_lookup, decide_True; [done|].
      apply list_elem_of_fmap. by exists student. }
    exists (mkData (cls_id cls) (user_id u) (currentDate st) (stu_id student)
              {| status := JStr st0;
                 notes := shownNotes (attendance st) (stu_id student) |}).
    split; [reflexivity|]. split; [reflexivity|].
    destruct (truthy (existingId (existingRecords st) (stu_id student))) eqn:He.
    + right. eexists. subst records. apply elem_of_prepared_updates.
      eexists _, _. split; [exact Hl|]. split; [by destruct st0|]. by split.
    + left. subst records. apply elem_of_prepared_inserts.
      eexists _, _. split; [exact Hl|]. split; [by destruct st0|]. by split.
Qed.

Lemma handleQuickMark_then_save_writes_roster_witness :
  let after := (handleQuickMark true "present" editedA).1 in
  let out := handleSaveAttendance dbRemote (Some teacher) false clock sampleDb after in
  let records := prepareRecords (cls_id classA) (user_id teacher) (currentDate editedA)
                   (attendance after) (existingRecords editedA) in
  existsb isConfirm out.2 = false
  ∧ (∀ student, student ∈ students editedA →
       ∃ rd, student_id rd = stu_id student ∧ rd_status rd = JStr "present"
         ∧ (rd ∈ records.1 ∨ ∃ rid, mkUpdateRecord rid rd ∈ records.2)).
Proof.
  apply (handleQuickMark_then_save_writes_roster dbRemote "present" teacher false clock
           sampleDb editedA classA).
  - reflexivity.
  - vm_compute. discriminate.
  - discriminate.
Defined.

Lemma handleSaveAttendance_asks_iff_unmarked_witness :
  let out := handleSaveAttendance dbRemote (Some teacher) true clock sampleDb bobEditedA in
  (unmarkedStudents bobEditedA = [] → existsb isConfirm out.2 = false)
  ∧ (unmarkedStudents bobEditedA ≠ [] →
       ∃ rest, out.2 = Confirm (MsgUnmarked (length (unmarkedStudents bobEditedA))) :: rest
               ∧ existsb isConfirm rest = false
               ∧ (true = false → rest = [])).
Proof.
  apply (handleSaveAttendance_asks_iff_unmarked dbRemote teacher true clock sampleDb
           bobEditedA classA).
  reflexivity.
Defined.

(** X13.  When the fetch of the classes fails (loadClasses), the state is left
    as it was and the failure is reported by an error toast, after the one
    request. *)
Theorem loadClasses_failure_keeps_state {Store : Type} (R : Remote Store)
    (classId : option string) (s : Store) (st : State) :
  failure (selectClasses R s).2 ≠ None →
  let out := loadClasses R classId s st in
  out.1.1 = st
  ∧ requests out.2 = [SelectClasses]
  ∧ last out.2 = Some (ToastError MsgFailedLoadClasses).
Proof.
  intros Hfail. unfold loadClasses.
  by destruct (selectClasses R s) as [s1 [d [e|]|r]].
Qed.

Lemma loadClasses_failure_keeps_state_witness :
  let out := loadClasses downRemote (Some "c1") tt loadedA in
  out.1.1 = loadedA
  ∧ requests out.2 = [SelectClasses]
  ∧ last out.2 = Some (ToastError MsgFailedLoadClasses).
Proof.
  apply (loadClasses_failure_keeps_state downRemote (Some "c1") tt loadedA).
  vm_compute. discriminate.
Defined.

Lemma find_class_Some (c : string) data found :
  find (λ cls, bool_decide (cls_id cls = c)) data = Some found →
  found ∈ data ∧ cls_id found = c.
Proof.
  intros [Hin Hb]%find_some. split; [by apply list_elem_of_In|].
  by apply bool_decide_eq_true in Hb.
Qed.

Lemma find_class_None (c : string) data :
  find (λ cls, bool_decide (cls_id cls = c)) data = None ↔
  ∀ cls, cls ∈ data → cls_id cls ≠ c.
Proof.
  split.
  - intros Hnone cls Hin Heq. apply list_elem_of_In in Hin.
    pose proof (find_none _ _ Hnone cls Hin) as Hb. cbn in Hb.
    by apply bool_decide_eq_false in Hb.
  - intros Hall. destruct (find _ data) as [found|] eqn:Hf; [|done].
    apply find_class_Some in Hf as [Hin Heq]. by destruct (Hall found Hin).
Qed.

(** X14.  When the classes are fetched and the route names a class, the fetched
    classes are installed; a fetched class of that identifier becomes the
    selected class, and when there is none the selection is unchanged, the
    user is told that the class was not found and is sent to the teacher
    dashboard.  The editable state, the roster and the date are untouched. *)
Theorem loadClasses_selects_route_class {Store : Type} (R : Remote Store)
    (c : string) (s s1 : Store) (st : State) (data : list Class) :
  c ≠ EmptyString →
  selectClasses R s = (s1, Resolved (Some data) None) →
  let out := loadClasses R (Some c) s st in
  classes out.1.1 = data
  ∧ ((∃ cls, cls ∈ data ∧ cls_id cls = c) →
       ∃ sel, selectedClass out.1.1 = Some sel ∧ sel ∈ data ∧ cls_id sel = c
              ∧ out.2 = [Request SelectClasses])
  ∧ ((∀ cls, cls ∈ data → cls_id cls ≠ c) →
       selectedClass out.1.1 = selectedClass st
       ∧ out.2 = [Request SelectClasses; ToastError MsgClassNotFound;
                  Navigate "/teacher"])
  ∧ attendance out.1.1 = attendance st
  ∧ existingRecords out.1.1 = existingRecords st
  ∧ students out.1.1 = students st
  ∧ currentDate out.1.1 = currentDate st.
Proof.
  intros Hc Hq out. subst out. unfold loadClasses. rewrite Hq.
  destruct c as [|a c]; [done|].
  destruct (find _ data) as [found|] eqn:Hf; cbn.
  - apply find_class_Some in Hf as [Hin Heq].
    split; [done|]. split; [|split; [|done]].
    + intros _. by exists found.
    + intros Hall. by destruct (Hall found Hin).
  - split; [done|]. split; [|split; [|done]].
    + intros (cls & Hin & Heq). exfalso.
      by apply (proj1 (find_class_None _ _) Hf cls Hin).
    + done.
Qed.

Lemma loadClasses_selects_route_class_witness :
  let out := loadClasses dbRemote (Some "c1") sampleDb (initialState "2024-03-01") in
  classes out.1.1 = queryClasses sampleDb
  ∧ ((∃ cls, cls ∈ queryClasses sampleDb ∧ cls_id cls = "c1") →
       ∃ sel, selectedClass out.1.1 = Some sel ∧ sel ∈ queryClasses sampleDb
              ∧ cls_id sel = "c1" ∧ out.2 = [Request SelectClasses])
  ∧ ((∀ cls, cls ∈ queryClasses sampleDb → cls_id cls ≠ "c1") →
       selectedClass out.1.1 = selectedClass (initialState "2024-03-01")
       ∧ out.2 = [Request SelectClasses; ToastError MsgClassNotFound;
                  Navigate "/teacher"])
  ∧ attendance out.1.1 = attendance (initialState "2024-03-01")
  ∧ existingRecords out.1.1 = existingRecords (initialState "2024-03-01")
  ∧ students out.1.1 = students (initialState "2024-03-01")
  ∧ currentDate out.1.1 = currentDate (initialState "2024-03-01").
Proof.
  apply (loadClasses_selects_route_class dbRemote "c1" sampleDb sampleDb
           (initialState "2024-03-01") (queryClasses sampleDb)).
  - discriminate.
  - reflexivity.
Defined.

#[global] Instance byYearLevel_total : Total byYearLevel.
Proof. intros a b. unfold byYearLevel. lia. Qed.

#[global] Instance byYearLevel_trans : Transitive byYearLevel.
Proof. intros a b c. unfold byYearLevel. lia. Qed.

(** X15.  Against the relational store, the classes offered are exactly the
    active classes, by ascending year level; a class selected by the load is
    an active class of the identifier of the route, and a route that names
    only inactive classes selects nothing and reports that the class was
    not found. *)
Theorem loadClasses_offers_active_classes_in_order (db : Db)
    (classId : option string) (st : State) :
  let out := loadClasses dbRemote classId db st in
  (∀ cls, cls ∈ classes out.1.1 ↔ cls ∈ classes_table db ∧ cls_is_active cls = true)
  ∧ StronglySorted byYearLevel (classes out.1.1)
  ∧ (∀ sel, selectedClass out.1.1 = Some sel →
       selectedClass st = Some sel
       ∨ (sel ∈ classes_table db ∧ cls_is_active sel = true ∧ classId = Some (cls_id sel)))
  ∧ (∀ c, classId = Some c → c ≠ EmptyString →
       (∀ cls, cls ∈ classes_table db → cls_id cls = c → cls_is_active cls = false) →
       selectedClass out.1.1 = selectedClass st
       ∧ ToastError MsgClassNotFound ∈ out.2).
Proof.
  intros out. subst out. unfold loadClasses. cbn [dbRemote selectClasses].
  assert (Hmem : ∀ cls, cls ∈ queryClasses db
                        ↔ cls ∈ classes_table db ∧ cls_is_active cls = true).
  { intros cls. unfold queryClasses. rewrite merge_sort_Permutation.
    rewrite list_elem_of_filter. tauto. }
  assert (Hsorted : StronglySorted byYearLevel (queryClasses db)).
  { unfold queryClasses. apply StronglySorted_merge_sort; apply _. }
  generalize dependent (queryClasses db). intros data Hmem Hsorted.
  destruct classId as [[|a c]|].
  - split; [exact Hmem|]. split; [exact Hsorted|]. split; [by left|].
    by intros c [= <-] ?.
  - destruct (find (λ cls, bool_decide (cls_id cls = String a c)) data)
      as [found|] eqn:Hf.
    + apply find_class_Some in Hf as [Hin Heq]. apply Hmem in Hin as [Hin Hact].
      split; [exact Hmem|]. split; [exact Hsorted|]. split.
      * intros sel [= <-]. right. by rewrite Heq.
      * intros c' [= <-] _ Hall. rewrite (Hall found Hin Heq) in Hact. done.
    + split; [exact Hmem|]. split; [exact Hsorted|]. split; [by left|].
      intros c' _ _ _. split; [done|]. right. by left.
  - split; [exact Hmem|]. split; [exact Hsorted|]. split; [by left|]. done.
Qed.

(** A load that goes through installs what the two fetches answered. *)
Lemma load_success {Store} (R : Remote Store) s s1 s2 st cls sd ad :
  selectedClass st = Some cls →
  selectStudents R s (cls_id cls) = (s1, Resolved sd None) →
  selectAttendance R s1 (cls_id cls) (currentDate st) = (s2, Resolved ad None) →
  loadStudentsAndAttendance R s st =
  (setLoading false
     (setHasChanges false
        (setAttendance (buildMaps (default [] ad)).2
           (setExistingRecords (buildMaps (default [] ad)).1
              (setStudents (default [] sd) st)))),
   s2,
   [Request (SelectStudents (cls_id cls));
    Request (SelectAttendance (cls_id cls) (currentDate st))]).
Proof.
  intros Hcls Hq1 Hq2. unfold loadStudentsAndAttendance.
  rewrite Hcls, Hq1. cbn [setStudents currentDate]. by rewrite Hq2.
Qed.

Lemma loadSucceeds_inv {Store} (R : Remote Store) s st :
  loadSucceeds R s st = true →
  ∃ cls s1 s2 sd ad,
    selectedClass st = Some cls
    ∧ selectStudents R s (cls_id cls) = (s1, Resolved sd None)
    ∧ selectAttendance R s1 (cls_id cls) (currentDate st) = (s2, Resolved ad None).
Proof.
  unfold loadSucceeds. destruct (selectedClass st) as [cls|]; [|done].
  destruct (selectStudents R s (cls_id cls)) as [s1 [sd [e|]|r]] eqn:Hq1; try done.
  cbn. destruct (selectAttendance R s1 (cls_id cls) (currentDate st))
    as [s2 [ad [e|]|r]] eqn:Hq2; try done.
  intros _. by exists cls, s1, s2, sd, ad.
Qed.

(** X16.  A load that succeeds does not depend on what the editable state held:
    from two states with the same class and date it installs the same
    editable map, existing-id map and roster, clears the dirty flag, issues
    the same requests, and the two maps it installs have the same keys. *)
Theorem load_discards_previous_state {Store : Type} (R : Remote Store)
    (s : Store) (st1 st2 : State) :
  selectedClass st1 = selectedClass st2 →
  currentDate st1 = currentDate st2 →
  loadSucceeds R s st1 = true →
  let o1 := loadStudentsAndAttendance R s st1 in
  let o2 := loadStudentsAndAttendance R s st2 in
  attendance o1.1.1 = attendance o2.1.1
  ∧ existingRecords o1.1.1 = existingRecords o2.1.1
  ∧ students o1.1.1 = students o2.1.1
  ∧ hasChanges o1.1.1 = false
  ∧ hasChanges o2.1.1 = false
  ∧ dom (existingRecords o1.1.1) = dom (attendance o1.1.1)
  ∧ o1.1.2 = o2.1.2
  ∧ o1.2 = o2.2.
Proof.
  intros Hsel Hdate (cls & s1 & s2 & sd & ad & Hcls & Hq1 & Hq2)%loadSucceeds_inv o1 o2.
  subst o1 o2.
  rewrite (load_success R s s1 s2 st1 cls sd ad) by done.
  rewrite (load_success R s s1 s2 st2 cls sd ad) by (by rewrite <- ?Hsel, <- ?Hdate).
  cbn. rewrite Hdate. repeat split; try done.
  apply set_eq. intros sid. rewrite !elem_of_dom.
  destruct (buildMaps_lookup (default [] ad) sid) as [-> ->].
  by rewrite !fmap_is_Some.
Qed.

Lemma load_discards_previous_state_witness :
  let o1 := loadStudentsAndAttendance dbRemote sampleDb editedA in
  let o2 := loadStudentsAndAttendance dbRemote sampleDb selectedA in
  attendance o1.1.1 = attendance o2.1.1
  ∧ existingRecords o1.1.1 = existingRecords o2.1.1
  ∧ students o1.1.1 = students o2.1.1
  ∧ hasChanges o1.1.1 = false
  ∧ hasChanges o2.1.1 = false
  ∧ dom (existingRecords o1.1.1) = dom (attendance o1.1.1)
  ∧ o1.1.2 = o2.1.2
  ∧ o1.2 = o2.2.
Proof.
  apply (load_discards_previous_state dbRemote sampleDb editedA selectedA);
    reflexivity.
Defined.

(** X17.  When the roster is fetched and the fetch of the attendance fails, the
    new roster is installed while the editable map, the existing-id map and
    the dirty flag stay those of before; the loading flag is down. *)
Theorem load_attendance_failure_installs_roster {Store : Type} (R : Remote Store)
    (s s1 : Store) (st : State) (cls : Class) (sd : option (list Student)) :
  selectedClass st = Some cls →
  selectStudents R s (cls_id cls) = (s1, Resolved sd None) →
  failure (selectAttendance R s1 (cls_id cls) (currentDate st)).2 ≠ None →
  let out := loadStudentsAndAttendance R s st in
  students out.1.1 = default [] sd
  ∧ attendance out.1.1 = attendance st
  ∧ existingRecords out.1.1 = existingRecords st
  ∧ hasChanges out.1.1 = hasChanges st
  ∧ loading out.1.1 = false
  ∧ requests out.2 = [SelectStudents (cls_id cls);
                      SelectAttendance (cls_id cls) (currentDate st)].
Proof.
  intros Hcls Hq1 Hfail out. subst out. unfold loadStudentsAndAttendance.
  rewrite Hcls, Hq1. cbn [setStudents currentDate].
  by destruct (selectAttendance R s1 (cls_id cls) (currentDate st))
    as [s2 [ad [e|]|r]].
Qed.

Lemma load_attendance_failure_installs_roster_witness :
  let out := loadStudentsAndAttendance attendanceDownRemote sampleDb
               (setStudents [] editedA) in
  students out.1.1 = default [] (Some (queryStudents sampleDb "c1"))
  ∧ attendance out.1.1 = attendance (setStudents [] editedA)
  ∧ existingRecords out.1.1 = existingRecords (setStudents [] editedA)
  ∧ hasChanges out.1.1 = hasChanges (setStudents [] editedA)
  ∧ loading out.1.1 = false
  ∧ requests out.2 = [SelectStudents (cls_id classA);
                      SelectAttendance (cls_id classA)
                        (currentDate (setStudents [] editedA))].
Proof.
  apply (load_attendance_failure_installs_roster attendanceDownRemote sampleDb sampleDb
           (setStudents [] editedA) classA (Some (queryStudents sampleDb "c1"))).
  - reflexivity.
  - reflexivity.
  - vm_compute. discriminate.
Defined.

(** X18.  A change of class (handleClassChange) asks for a confirmation exactly
    when the page is dirty; declined on a dirty page it keeps the selection,
    otherwise it selects the first class of the given identifier, a class of
    the list, or none; it never changes the editable map, the existing-id
    map, the dirty flag, the roster or the date, and requests nothing. *)
Theorem handleClassChange_guarded (confirmed : bool) (newClassId : string) (st : State) :
  let out := handleClassChange confirmed newClassId st in
  let newClass := find (λ cls, bool_decide (cls_id cls = newClassId)) (classes st) in
  existsb isConfirm out.2 = hasChanges st
  ∧ selectedClass out.1
    = (if hasChanges st && negb confirmed then selectedClass st else newClass)
  ∧ (∀ c, newClass = Some c → c ∈ classes st ∧ cls_id c = newClassId)
  ∧ attendance out.1 = attendance st
  ∧ existingRecords out.1 = existingRecords st
  ∧ hasChanges out.1 = hasChanges st
  ∧ students out.1 = students st
  ∧ currentDate out.1 = currentDate st
  ∧ requests out.2 = [].
Proof.
  unfold handleClassChange.
  destruct (hasChanges st) eqn:Hd, confirmed; cbn; rewrite ?Hd;
    repeat split; try done; try (by intros ?c ?%find_class_Some);
    by eapply find_class_Some.
Qed.

(** X19.  Choosing the placeholder option of the class list, whose value is
    the empty string and the identifier of no class, on a clean page or
    confirmed: the handler deselects the class, keeps the roster, the
    editable map, the existing-id map and the dirty flag of the class left
    behind, and navigates to the attendance route without a class.  From
    then on, and from any state in which no class is selected, each run of
    the effects that follow keeps the page that way: the load of the
    students and the attendance requests nothing and leaves the store, and
    the load of the classes for a route without a class issues its one
    request and selects nothing; the bulk mark does nothing, and a save
    only reports that data is missing. *)
Theorem deselecting_class_keeps_stale_state {Store : Type} (R : Remote Store)
    (confirmed : bool) (st : State) :
  (∀ cls, cls ∈ classes st → cls_id cls ≠ EmptyString) →
  hasChanges st = false ∨ confirmed = true →
  let r := handleClassChange confirmed EmptyString st in
  staleAfter st r.1
  ∧ r.2 = (if hasChanges st then [Confirm MsgUnsavedSwitch] else [])
          ++ [Navigate "/teacher/attendance/"]
  ∧ ∀ x, staleAfter st x →
      (∀ s, let out := loadStudentsAndAttendance R s x in
            staleAfter st out.1.1 ∧ out.1.2 = s ∧ out.2 = [])
      ∧ (∀ classId s, classId = None ∨ classId = Some EmptyString →
            let out := loadClasses R classId s x in
            staleAfter st out.1.1 ∧ requests out.2 = [SelectClasses])
      ∧ (∀ c st0, handleQuickMark c st0 x = (x, []))
      ∧ (∀ user c now s,
           handleSaveAttendance R user c now s x = (x, s, [ToastError MsgMissingData])).
Proof.
  intros Hall%find_class_None Hgo r.
  assert (Hh : r = (setSelectedClass None st,
                    (if hasChanges st then [Confirm MsgUnsavedSwitch] else [])
                    ++ [Navigate "/teacher/attendance/"])).
  { subst r. unfold handleClassChange. rewrite Hall.
    destruct (hasChanges st); [|done]. by destruct Hgo as [?| ->]. }
  rewrite Hh. cbn [fst snd]. split; [done|]. split; [done|].
  intros x (Hsel & Hstu & Hatt & Hex & Hch). split; [|split; [|split]].
  - intros s. unfold loadStudentsAndAttendance. by rewrite Hsel.
  - intros classId s Hid. unfold loadClasses.
    destruct (selectClasses R s) as [s1 [d [e|]|reason]];
      destruct Hid as [-> | ->]; try done; by destruct d.
  - intros c st0. unfold handleQuickMark. by rewrite Hsel.
  - intros user c now s. unfold handleSaveAttendance. by rewrite Hsel.
Qed.

Lemma deselecting_class_keeps_stale_state_witness :
  let r := handleClassChange true EmptyString editedA in
  staleAfter editedA r.1
  ∧ r.2 = (if hasChanges editedA then [Confirm MsgUnsavedSwitch] else [])
          ++ [Navigate "/teacher/attendance/"]
  ∧ ∀ x, staleAfter editedA x →
      (∀ s, let out := loadStudentsAndAttendance dbRemote s x in
            staleAfter editedA out.1.1 ∧ out.1.2 = s ∧ out.2 = [])
      ∧ (∀ classId s, classId = None ∨ classId = Some EmptyString →
            let out := loadClasses dbRemote classId s x in
            staleAfter editedA out.1.1 ∧ requests out.2 = [SelectClasses])
      ∧ (∀ c st0, handleQuickMark c st0 x = (x, []))
      ∧ (∀ user c now s,
           handleSaveAttendance dbRemote user c now s x
           = (x, s, [ToastError MsgMissingData])).
Proof.
  apply (deselecting_class_keeps_stale_state dbRemote true editedA).
  - refine (proj1 (find_class_None _ _) _). reflexivity.
  - by right.
Defined.

(** X20.  A change to a class of the list, on a clean page or confirmed: the
    handler selects that class, keeps the date and navigates to the route
    of the class, after a confirmation exactly on a dirty page.  From then
    on, in any state whose selected class has that identifier, each run of
    the effects that follow behaves as follows.  A run of the load of the
    students and the attendance whose two fetches succeed asks the store
    for the roster of that class and for its attendance of the date of the
    state, installs the roster, the editable map and the existing-id map
    built from the two answers, whatever the maps held, and clears the
    dirty flag.  A run of the load of the classes for the route of the
    class, when the fetched list has a class of that identifier, leaves a
    class of that identifier selected and the roster, the two maps, the
    dirty flag and the date untouched. *)
Theorem class_change_reloads_editable_state {Store : Type} (R : Remote Store)
    (confirmed : bool) (newClassId : string) (st : State) (c : Class) :
  find (λ cls, bool_decide (cls_id cls = newClassId)) (classes st) = Some c →
  hasChanges st = false ∨ confirmed = true →
  let r := handleClassChange confirmed newClassId st in
  selectedClass r.1 = Some c
  ∧ cls_id c = newClassId
  ∧ currentDate r.1 = currentDate st
  ∧ r.2 = (if hasChanges st then [Confirm MsgUnsavedSwitch] else [])
          ++ [Navigate ("/teacher/attendance/" +:+ newClassId)]
  ∧ ∀ x c1, selectedClass x = Some c1 → cls_id c1 = newClassId →
      (∀ s s1 s2 sd ad,
         selectStudents R s newClassId = (s1, Resolved sd None) →
         selectAttendance R s1 newClassId (currentDate x) = (s2, Resolved ad None) →
         let out := loadStudentsAndAttendance R s x in
         selectedClass out.1.1 = Some c1
         ∧ currentDate out.1.1 = currentDate x
         ∧ students out.1.1 = default [] sd
         ∧ attendance out.1.1 = (buildMaps (default [] ad)).2
         ∧ existingRecords out.1.1 = (buildMaps (default [] ad)).1
         ∧ hasChanges out.1.1 = false
         ∧ out.1.2 = s2
         ∧ out.2 = [Request (SelectStudents newClassId);
                    Request (SelectAttendance newClassId (currentDate x))])
      ∧ (∀ s s1 data found,
           selectClasses R s = (s1, Resolved (Some data) None) →
           find (λ cls, bool_decide (cls_id cls = newClassId)) data = Some found →
           let out := loadClasses R (Some newClassId) s x in
           (∃ c2, selectedClass out.1.1 = Some c2 ∧ cls_id c2 = newClassId)
           ∧ classes out.1.1 = data
           ∧ students out.1.1 = students x
           ∧ attendance out.1.1 = attendance x
           ∧ existingRecords out.1.1 = existingRecords x
           ∧ hasChanges out.1.1 = hasChanges x
           ∧ currentDate out.1.1 = currentDate x
           ∧ out.2 = [Request SelectClasses]).
Proof.
  intros Hf Hgo r.
  pose proof (find_class_Some _ _ _ Hf) as [_ Hid].
  assert (Hh : r = (setSelectedClass (Some c) st,
                    (if hasChanges st then [Confirm MsgUnsavedSwitch] else [])
                    ++ [Navigate ("/teacher/attendance/" +:+ newClassId)])).
  { subst r. unfold handleClassChange. rewrite Hf.
    destruct (hasChanges st); [|done]. by destruct Hgo as [?| ->]. }
  rewrite Hh. cbn [fst snd]. do 4 (split; [done|]).
  intros x c1 Hsel Hc1. split.
  - intros s s1 s2 sd ad Hq1 Hq2.
    rewrite (load_success R s s1 s2 x c1 sd ad) by (by rewrite ?Hc1).
    cbn [fst snd]. rewrite Hc1. cbn. by rewrite Hsel.
  - intros s s1 data found Hq Hfound. unfold loadClasses.
    rewrite Hq. cbn [default].
    destruct newClassId as [|a cid].
    + cbn. split; [by exists c1|done].
    + rewrite Hfound. cbn. split; [|done]. exists found. split; [done|].
      by apply find_class_Some in Hfound as [_ ?].
Qed.

Lemma class_change_reloads_editable_state_witness :
  let r := handleClassChange true "c2" editedA in
  selectedClass r.1 = Some classB
  ∧ cls_id classB = "c2"
  ∧ currentDate r.1 = currentDate editedA
  ∧ r.2 = (if hasChanges editedA then [Confirm MsgUnsavedSwitch] else [])
          ++ [Navigate ("/teacher/attendance/" +:+ "c2")]
  ∧ ∀ x c1, selectedClass x = Some c1 → cls_id c1 = "c2" →
      (∀ s s1 s2 sd ad,
         selectStudents dbRemote s "c2" = (s1, Resolved sd None) →
         selectAttendance dbRemote s1 "c2" (currentDate x) = (s2, Resolved ad None) →
         let out := loadStudentsAndAttendance dbRemote s x in
         selectedClass out.1.1 = Some c1
         ∧ currentDate out.1.1 = currentDate x
         ∧ students out.1.1 = default [] sd
         ∧ attendance out.1.1 = (buildMaps (default [] ad)).2
         ∧ existingRecords out.1.1 = (buildMaps (default [] ad)).1
         ∧ hasChanges out.1.1 = false
         ∧ out.1.2 = s2
         ∧ out.2 = [Request (SelectStudents "c2");
                    Request (SelectAttendance "c2" (currentDate x))])
      ∧ (∀ s s1 data found,
           selectClasses dbRemote s = (s1, Resolved (Some data) None) →
           find (λ cls, bool_decide (cls_id cls = "c2")) data = Some found →
           let out := loadClasses dbRemote (Some "c2") s x in
           (∃ c2, selectedClass out.1.1 = Some c2 ∧ cls_id c2 = "c2")
           ∧ classes out.1.1 = data
           ∧ students out.1.1 = students x
           ∧ attendance out.1.1 = attendance x
           ∧ existingRecords out.1.1 = existingRecords x
           ∧ hasChanges out.1.1 = hasChanges x
           ∧ currentDate out.1.1 = currentDate x
           ∧ out.2 = [Request SelectClasses]).
Proof.
  apply (class_change_reloads_editable_state dbRemote true "c2" editedA classB).
  - reflexivity.
  - by right.
Defined.

(** X21.  A change to another date, followed by the effect with successful
    fetches, asks for nothing whatever the dirty flag: the date is changed,
    the roster, the editable map and the existing-id map are those built from
    the answers for the class and the new date, and the dirty flag is
    cleared. *)
Theorem date_change_reloads_without_asking {Store : Type} (R : Remote Store)
    (value : string) (s s1 s2 : Store) (st : State) (cls : Class)
    (sd : option (list Student)) (ad : option (list AttendanceRecord)) :
  selectedClass st = Some cls →
  value ≠ currentDate st →
  selectStudents R s (cls_id cls) = (s1, Resolved sd None) →
  selectAttendance R s1 (cls_id cls) value = (s2, Resolved ad None) →
  let out := thenEffect R st s (handleDateChange value st) in
  existsb isConfirm out.2 = false
  ∧ currentDate out.1.1 = value
  ∧ selectedClass out.1.1 = Some cls
  ∧ attendance out.1.1 = (buildMaps (default [] ad)).2
  ∧ existingRecords out.1.1 = (buildMaps (default [] ad)).1
  ∧ students out.1.1 = default [] sd
  ∧ hasChanges out.1.1 = false.
Proof.
  intros Hcls Hne Hq1 Hq2 out. subst out.
  unfold thenEffect, depsChanged, handleDateChange. cbn [fst snd].
  rewrite bool_decide_eq_true_2 by (right; cbn; congruence).
  rewrite (load_success R s s1 s2 (setCurrentDate value st) cls sd ad) by done.
  cbn -[buildMaps]. by rewrite Hcls.
Qed.

Lemma date_change_reloads_without_asking_witness :
  let out := thenEffect dbRemote editedA sampleDb (handleDateChange "2024-03-02" editedA) in
  existsb isConfirm out.2 = false
  ∧ currentDate out.1.1 = "2024-03-02"
  ∧ selectedClass out.1.1 = Some classA
  ∧ attendance out.1.1
    = (buildMaps (default [] (Some (queryAttendance sampleDb "c1" "2024-03-02")))).2
  ∧ existingRecords out.1.1
    = (buildMaps (default [] (Some (queryAttendance sampleDb "c1" "2024-03-02")))).1
  ∧ students out.1.1 = default [] (Some (queryStudents sampleDb "c1"))
  ∧ hasChanges out.1.1 = false.
Proof.
  apply (date_change_reloads_without_asking dbRemote "2024-03-02" sampleDb sampleDb
           sampleDb editedA classA (Some (queryStudents sampleDb "c1"))
           (Some (queryAttendance sampleDb "c1" "2024-03-02"))).
  - reflexivity.
  - discriminate.
  - reflexivity.
  - reflexivity.
Defined.

(** X22.  Choosing the date already shown changes nothing: the effect is not run
    again and the edits stay. *)
Theorem same_date_keeps_page {Store : Type} (R : Remote Store) (s : Store) (st : State) :
  thenEffect R st s (handleDateChange (currentDate st) st) = (st, s, []).
Proof.
  unfold thenEffect, depsChanged, handleDateChange. cbn [fst snd].
  rewrite bool_decide_eq_false_2; [by destruct st|].
  intros [?|?]; done.
Qed.

(** The pages of a signed-in user, by role and default class. *)
Lemma getNavigationPages_signed_in u pr :
  getNavigationPages (Some u) (Some pr) =
  [mkPage "Dashboard" "/" true]
  ++ (if decide (prof_role pr = JStr "teacher") then
        mkPage "Take Attendance" "/teacher" true
        :: (if truthy (prof_default_class_id pr) then [quickPage pr] else [])
      else [])
  ++ (if decide (prof_role pr = JStr "admin") then
        [mkPage "Teacher Dashboard" "/teacher" true; mkPage "Admin Panel" "/admin" true]
      else []).
Proof. reflexivity. Qed.

(** X23.  The pages of the navigation bar (getNavigationPages): without a user or
    a profile they are the public pages, starting with the sign-in; with
    both they are all protected and start with the dashboard; every link is
    the path of a declared route, or the attendance route followed by the
    default class of the profile; the admin panel is offered exactly to a
    profile whose role is admin. *)
Theorem getNavigationPages_by_session (user : option User) (profile : option Profile) :
  let pages := getNavigationPages user profile in
  let signedIn := match user, profile with Some _, Some _ => true | _, _ => false end in
  Forall (λ p, protected p = signedIn) pages
  ∧ Forall (λ p, link p ∈ staticRoutes
                 ∨ ∃ pr, profile = Some pr
                      ∧ link p = attendanceRoute +:+ toString (prof_default_class_id pr))
           pages
  ∧ head pages = Some (if signedIn then mkPage "Dashboard" "/" true
                       else mkPage "Sign In" "/auth/sign-in" false)
  ∧ (mkPage "Admin Panel" "/admin" true ∈ pages
     ↔ signedIn = true ∧ ∃ pr, profile = Some pr ∧ prof_role pr = JStr "admin").
Proof.
  assert (Hout : ∀ pages,
            pages = [mkPage "Sign In" "/auth/sign-in" false;
                     mkPage "Sign Up" "/auth/sign-up" false] →
            Forall (λ p, protected p = false) pages
            ∧ Forall (λ p, link p ∈ staticRoutes
                 ∨ ∃ pr, profile = Some pr
                      ∧ link p = attendanceRoute +:+ toString (prof_default_class_id pr))
                pages
            ∧ head pages = Some (mkPage "Sign In" "/auth/sign-in" false)
            ∧ (mkPage "Admin Panel" "/admin" true ∈ pages
               ↔ false = true ∧ ∃ pr, profile = Some pr ∧ prof_role pr = JStr "admin")).
  { intros pages ->. split; [by repeat constructor|]. split.
    - repeat (apply Forall_cons; split); try done;
        cbn beta; left; unfold staticRoutes; in_list.
    - split; [done|]. split; [intros H; not_in_list H|by intros [? _]]. }
  destruct user as [u|], profile as [pr|]; cbn zeta; try by apply Hout.
  clear Hout. rewrite getNavigationPages_signed_in.
  destruct (decide (prof_role pr = JStr "teacher")) as [Ht|Ht];
    destruct (decide (prof_role pr = JStr "admin")) as [Ha|Ha];
    try (rewrite Ht in Ha; discriminate);
    try destruct (truthy (prof_default_class_id pr));
    cbn [app]; (split; [by repeat constructor|]); (split; [|split; [done|]]).
  all: try (repeat (apply Forall_cons; split); try done;
            cbn beta;
            first [ left; unfold staticRoutes; by in_list
                  | right; by exists pr ]).
  all: split; [intros H|intros [_ (pr' & [= <-] & Hr)]]; try done.
  all: try (exfalso; not_in_list H).
  all: try (exfalso; unfold quickPage, attendanceRoute in H; not_in_list H).
  all: try (split; [done|]; by exists pr).
  all: in_list.
Qed.

Lemma prefix_append c x : String.prefix c (c +:+ x) = true.
Proof.
  induction c as [|a c IH]; [by destruct x|].
  change (String a c +:+ x) with (String a (c +:+ x)). cbn [String.prefix].
  destruct (Ascii.ascii_dec a a); [exact IH|done].
Qed.

Lemma quickPage_on_route pr : String.prefix attendanceRoute (link (quickPage pr)) = true.
Proof. apply prefix_append. Qed.

(** X24.  The navigation bar holds an entry on the attendance route exactly for a
    teacher whose profile has a default class: the one entry that opens the
    attendance page of that class. *)
Theorem getNavigationPages_quick_link (u : User) (pr : Profile) :
  let pages := getNavigationPages (Some u) (Some pr) in
  filter (λ p, String.prefix attendanceRoute (link p) = true) pages
  = if decide (prof_role pr = JStr "teacher")
    then if truthy (prof_default_class_id pr) then [quickPage pr] else []
    else [].
Proof.
  cbn zeta. rewrite getNavigationPages_signed_in.
  destruct (decide (prof_role pr = JStr "teacher")) as [Ht|Ht];
    destruct (decide (prof_role pr = JStr "admin")) as [Ha|Ha];
    try (rewrite Ht in Ha; discriminate);
    try destruct (truthy (prof_default_class_id pr));
    cbn [app]; rewrite ?filter_cons, ?filter_nil;
    rewrite ?quickPage_on_route; decide_bool; reflexivity.
Qed.

Lemma prefix_refl s : String.prefix s s = true.
Proof.
  induction s as [|a s IH]; [done|]. cbn. by destruct (Ascii.ascii_dec a a).
Qed.

(** X25.  For a teacher with a default class the pages are the dashboard, the
    attendance entry and the quick entry; on the page the quick entry opens,
    isCurrentPage marks the attendance entry and the quick entry, and on the
    teacher dashboard the attendance entry alone. *)
Theorem quick_page_highlights (u : User) (pr : Profile) :
  prof_role pr = JStr "teacher" →
  truthy (prof_default_class_id pr) = true →
  let pages := getNavigationPages (Some u) (Some pr) in
  pages = [mkPage "Dashboard" "/" true; mkPage "Take Attendance" "/teacher" true;
           quickPage pr]
  ∧ filter (λ p, isCurrentPage (link (quickPage pr)) (link p) = true) pages
    = [mkPage "Take Attendance" "/teacher" true; quickPage pr]
  ∧ filter (λ p, isCurrentPage "/teacher" (link p) = true) pages
    = [mkPage "Take Attendance" "/teacher" true].
Proof.
  intros Hrole Hid pages. subst pages. rewrite getNavigationPages_signed_in.
  rewrite Hrole, Hid. rewrite decide_True by done. rewrite decide_False by done.
  cbn [app]. split; [done|].
  set (q := link (quickPage pr)).
  assert (Hne : q ≠ "/") by done.
  assert (Hq : isCurrentPage q q = true).
  { unfold isCurrentPage. rewrite (bool_decide_eq_false_2 (q = "/")) by done.
    cbn [andb negb]. by rewrite prefix_refl. }
  assert (H1 : isCurrentPage q "/" = false).
  { unfold isCurrentPage. by rewrite (bool_decide_eq_false_2 (q = "/")). }
  assert (H2 : isCurrentPage q "/teacher" = true).
  { unfold isCurrentPage. cbn [bool_decide andb negb].
    rewrite (bool_decide_eq_false_2 ("/teacher" = "/")) by done. cbn [andb negb].
    change (String.prefix "/teacher" q) with
      (String.prefix "/teacher"
         ("/teacher" +:+ ("/attendance/" +:+ toString (prof_default_class_id pr)))).
    by rewrite prefix_append. }
  assert (H3 : isCurrentPage "/teacher" q = false).
  { unfold isCurrentPage. by rewrite (bool_decide_eq_false_2 (q = "/")). }
  split.
  - rewrite !filter_cons, filter_nil. cbn [link]. fold q. rewrite Hq, H1, H2.
    rewrite !(decide_True (P := true = true)) by done.
    by rewrite (decide_False (P := false = true)).
  - rewrite !filter_cons, filter_nil. cbn [link]. fold q. rewrite H3.
    change (isCurrentPage "/teacher" "/") with false.
    change (isCurrentPage "/teacher" "/teacher") with true.
    rewrite !(decide_False (P := false = true)) by done.
    by rewrite (decide_True (P := true = true)).
Qed.

Lemma quick_page_highlights_witness :
  let pages := getNavigationPages (Some teacher) (Some teacherProfile) in
  pages = [mkPage "Dashboard" "/" true; mkPage "Take Attendance" "/teacher" true;
           quickPage teacherProfile]
  ∧ filter (λ p, isCurrentPage (link (quickPage teacherProfile)) (link p) = true) pages
    = [mkPage "Take Attendance" "/teacher" true; quickPage teacherProfile]
  ∧ filter (λ p, isCurrentPage "/teacher" (link p) = true) pages
    = [mkPage "Take Attendance" "/teacher" true].
Proof.
  apply (quick_page_highlights teacher teacherProfile); reflexivity.
Defined.
